(** * Storefront review API: tenant resolution, submission validation,
      listing and response encoding

    Shallow embedding of [app/routes/api.proxy.reviews.ts] (the handlers
    [loader] and [action] with their helpers [readBody], [safeJson] and
    [getShopFromRequest]) together with the fragment of the JavaScript
    semantics those functions rely on: truthiness, [String(..)],
    [Number(..)], [BigInt(..)], [JSON.stringify] and the [Headers] and
    [URLSearchParams] look-ups.

    Conventions.
    - A JavaScript string is a sequence of code units.  A Rocq [string]
      stands for it, one [ascii] per code unit, so the embedding covers the
      strings whose code units are below 256.
    - A JavaScript number is an IEEE-754 binary64 value, here a
      [spec_float] at precision 53 and maximal exponent 1024.
    - A BigInt is a [Z].
    - [console.error] in the two [catch] blocks writes to the server log
      only and is left out. *)

From Stdlib Require Import ZArith List String Ascii Bool Lia DecimalString SpecFloat.
From Stdlib Require Import DecimalPos.
Import ListNotations.

Set Warnings "-register-all".

Local Open Scope string_scope.
Local Open Scope list_scope.
Local Open Scope Z_scope.

(** ** Code units and strings *)

Module Str.

Definition code (c : ascii) : Z := Z.of_N (N_of_ascii c).

Definition chars (s : string) : list ascii := list_ascii_of_string s.
Definition of_chars (l : list ascii) : string := string_of_list_ascii l.

(** [StrWhiteSpaceChar] of the language grammar, restricted to code units
    below 256: TAB, LF, VT, FF, CR, SP and NBSP. *)
Definition is_ws (c : ascii) : bool :=
  let n := code c in
  ((9 <=? n) && (n <=? 13)) || (n =? 32) || (n =? 160).

Fixpoint ltrim (l : list ascii) : list ascii :=
  match l with
  | c :: r => if is_ws c then ltrim r else l
  | [] => []
  end.

Definition trim (l : list ascii) : list ascii := rev (ltrim (rev (ltrim l))).

(** [s.includes(t)] *)
Fixpoint prefixb (t s : list ascii) : bool :=
  match t, s with
  | [], _ => true
  | a :: t', b :: s' => Ascii.eqb a b && prefixb t' s'
  | _ :: _, [] => false
  end.

Fixpoint includes_chars (s t : list ascii) : bool :=
  prefixb t s ||
  match s with
  | [] => false
  | _ :: s' => includes_chars s' t
  end.

Definition includes (s t : string) : bool := includes_chars (chars s) (chars t).

(** ASCII lower-casing, as done by the header-name normalisation of
    [Headers] and by case-insensitive matching against ASCII letters. *)
Definition lower (c : ascii) : ascii :=
  let n := code c in
  if (65 <=? n) && (n <=? 90) then ascii_of_N (Z.to_N (n + 32)) else c.

Definition lowercase (s : string) : string := of_chars (map lower (chars s)).

Fixpoint join (sep : string) (l : list string) : string :=
  match l with
  | [] => ""
  | [x] => x
  | x :: r => (x ++ sep ++ join sep r)%string
  end.

Definition repeat0 (n : Z) : string := of_chars (repeat "0"%char (Z.to_nat n)).

(** Decimal numeral of an integer, the text of [BigInt.prototype.toString]. *)
Definition decimal (z : Z) : string := NilZero.string_of_int (Z.to_int z).

End Str.

(** ** Numerals *)

Module Numeral.

Definition digit_val (c : ascii) : option Z :=
  let n := Str.code c in
  if (48 <=? n) && (n <=? 57) then Some (n - 48)
  else if (97 <=? n) && (n <=? 102) then Some (n - 87)
  else if (65 <=? n) && (n <=? 70) then Some (n - 55)
  else None.

Definition is_digit (base : Z) (c : ascii) : bool :=
  match digit_val c with
  | Some d => d <? base
  | None => false
  end.

Fixpoint digits_acc (base : Z) (acc : Z) (l : list ascii) : option Z :=
  match l with
  | [] => Some acc
  | c :: r =>
      match digit_val c with
      | Some d => if d <? base then digits_acc base (acc * base + d) r else None
      | None => None
      end
  end.

(** Value of a non-empty run of digits in the given base; [None] when the
    run is empty or holds another character. *)
Definition digits (base : Z) (l : list ascii) : option Z :=
  match l with
  | [] => None
  | _ => digits_acc base 0 l
  end.

(** Longest prefix of decimal digits and what follows it. *)
Fixpoint span_digits (l : list ascii) : list ascii * list ascii :=
  match l with
  | c :: r =>
      if is_digit 10 c
      then let (d, rest) := span_digits r in (c :: d, rest)
      else ([], l)
  | [] => ([], [])
  end.

(** [NonDecimalIntegerLiteral]: 0x, 0o, 0b prefixes in either case. *)
Definition non_decimal (l : list ascii) : option (option Z) :=
  match l with
  | "0"%char :: p :: r =>
      if Ascii.eqb (Str.lower p) "x"%char then Some (digits 16 r)
      else if Ascii.eqb (Str.lower p) "o"%char then Some (digits 8 r)
      else if Ascii.eqb (Str.lower p) "b"%char then Some (digits 2 r)
      else None
  | _ => None
  end.

(** [StringToBigInt]: the argument of [BigInt(string)].  [None] is the
    [SyntaxError] the constructor throws. *)
Definition StringToBigInt (s : string) : option Z :=
  let l := Str.trim (Str.chars s) in
  match l with
  | [] => Some 0
  | _ =>
      match non_decimal l with
      | Some r => r
      | None =>
          match l with
          | "+"%char :: r => digits 10 r
          | "-"%char :: r => option_map Z.opp (digits 10 r)
          | _ => digits 10 l
          end
      end
  end.

End Numeral.

(** ** Numbers: IEEE-754 binary64 *)

Module Num.

(** Numbers are kept in the canonical form of the format, the one
    [binary_round_aux] returns; every function below that yields a number
    yields it in that form. *)
Definition number : Type := spec_float.

Definition prec : Z := 53.
Definition emax : Z := 1024.

Definition NaN : number := S754_nan.
Definition zero : number := S754_zero false.

(** The binary64 value nearest to [p / q] (ties to even), for [0 <= p] and
    [0 < q], with sign [neg].  The quotient is computed with at least 55
    significant bits and a location for what the division drops, then
    rounded by the Standard Library's [binary_round_aux]. *)
Definition round_ratio (neg : bool) (p q : Z) : number :=
  if p =? 0 then S754_zero neg
  else
    let k := Z.max 0 (55 + Z.log2 q - Z.log2 p) in
    let n := p * 2 ^ k in
    let mx := n / q in
    let r := n mod q in
    let lx := if r =? 0 then loc_Exact else loc_Inexact (2 * r ?= q) in
    binary_round_aux prec emax neg mx (- k) lx.

(** [m * 10 ^ e] rounded to a number. *)
Definition of_decimal (neg : bool) (m e : Z) : number :=
  if 0 <=? e then round_ratio neg (m * 10 ^ e) 1
  else round_ratio neg m (10 ^ (- e)).

Definition of_Z (z : Z) : number := round_ratio (z <? 0) (Z.abs z) 1.

(** Exact value of a finite number as a fraction. *)
Definition to_ratio (x : number) : Z * Z :=
  match x with
  | S754_finite _ m e =>
      if 0 <=? e then (Z.pos m * 2 ^ e, 1) else (Z.pos m, 2 ^ (- e))
  | _ => (0, 1)
  end.

Definition isFinite (x : number) : bool :=
  match x with
  | S754_zero _ | S754_finite _ _ _ => true
  | _ => false
  end.

(** [x < y] and [x > y] on numbers: false as soon as one side is NaN. *)
Definition lt (x y : number) : bool := SFltb x y.
Definition gt (x y : number) : bool := SFltb y x.

Definition isInteger (x : number) : bool :=
  match x with
  | S754_zero _ => true
  | S754_finite _ _ _ => let (p, q) := to_ratio x in p mod q =? 0
  | _ => false
  end.

(** Integer value of a number for which [isInteger] holds. *)
Definition to_Z (x : number) : Z :=
  match x with
  | S754_finite s _ _ => let (p, q) := to_ratio x in if s then - (p / q) else p / q
  | _ => 0
  end.

(** *** [StringToNumber] *)

Definition is_exp (c : ascii) : bool := Ascii.eqb (Str.lower c) "e"%char.

(** [ExponentPart_opt] up to the end of the literal. *)
Definition exponent_part (l : list ascii) : option Z :=
  match l with
  | [] => Some 0
  | c :: r =>
      if is_exp c then
        match r with
        | "+"%char :: d => Numeral.digits 10 d
        | "-"%char :: d => option_map Z.opp (Numeral.digits 10 d)
        | _ => Numeral.digits 10 r
        end
      else None
  end.

(** [StrUnsignedDecimalLiteral] other than [Infinity]: mantissa and decimal
    exponent of its mathematical value. *)
Definition unsigned_decimal (l : list ascii) : option (Z * Z) :=
  let (ip, r1) := Numeral.span_digits l in
  let (fp, r2) :=
    match r1 with
    | "."%char :: r => Numeral.span_digits r
    | _ => ([], r1)
    end in
  match ip ++ fp with
  | [] => None
  | ds =>
      match Numeral.digits_acc 10 0 ds, exponent_part r2 with
      | Some m, Some e => Some (m, e - Z.of_nat (List.length fp))
      | _, _ => None
      end
  end.

Definition unsigned_literal (neg : bool) (l : list ascii) : number :=
  if String.eqb (Str.of_chars l) "Infinity" then S754_infinity neg
  else
    match unsigned_decimal l with
    | Some (m, e) => of_decimal neg m e
    | None => NaN
    end.

Definition StringToNumber (s : string) : number :=
  let l := Str.trim (Str.chars s) in
  match l with
  | [] => zero
  | _ =>
      match Numeral.non_decimal l with
      | Some (Some n) => round_ratio false n 1
      | Some None => NaN
      | None =>
          match l with
          | "+"%char :: r => unsigned_literal false r
          | "-"%char :: r => unsigned_literal true r
          | _ => unsigned_literal false l
          end
      end
  end.

(** *** [Number::toString] in radix 10 *)

(** The [n] with [10^(n-1) <= p/q < 10^n], searched upwards from [n]. *)
Fixpoint magnitude (fuel : nat) (p q n : Z) : Z :=
  match fuel with
  | O => n
  | S f =>
      let below := if 0 <=? n then p <? q * 10 ^ n else p * 10 ^ (- n) <? q in
      if below then n else magnitude f p q (n + 1)
  end.

(** Candidates [s] with [k] digits at magnitude [n]: the two integers
    around [p/q / 10^(n-k)], kept when they round back to [x]. *)
Definition shortest_at (x : number) (p q n k : Z) : option (Z * Z) :=
  let e := n - k in
  let lo := if 0 <=? e then p / (q * 10 ^ e) else (p * 10 ^ (- e)) / q in
  let ok s := SFeqb (of_decimal false s e) x in
  let norm s := if s =? 10 ^ k then (10 ^ (k - 1), n + 1) else (s, n) in
  (* distance of a candidate to p/q, scaled by q and by 10^-e when e < 0 *)
  let dist s :=
    if 0 <=? e then Z.abs (s * 10 ^ e * q - p) else Z.abs (s * q - p * 10 ^ (- e)) in
  match ok lo, ok (lo + 1) with
  | true, true =>
      if dist lo <? dist (lo + 1) then Some (norm lo)
      else if dist (lo + 1) <? dist lo then Some (norm (lo + 1))
      else if Z.even lo then Some (norm lo) else Some (norm (lo + 1))
  | true, false => Some (norm lo)
  | false, true => Some (norm (lo + 1))
  | false, false => None
  end.

Fixpoint shortest (fuel : nat) (x : number) (p q n k : Z) : Z * Z * Z :=
  match fuel with
  | O => (p / q, n, k)
  | S f =>
      match shortest_at x p q n k with
      | Some (s, n') => (s, n', k)
      | None => shortest f x p q n (k + 1)
      end
  end.

Definition exponent_text (n : Z) : string :=
  let sign := if 0 <=? n - 1 then "+" else "-" in
  let digits := Str.decimal (Z.abs (n - 1)) in
  ("e" ++ sign ++ digits)%string.

Definition positive_toString (x : number) : string :=
  let (p, q) := to_ratio x in
  (* a lower estimate of the decimal magnitude from the binary one *)
  let est := ((Z.log2 p - Z.log2 q - 1) * 30103) / 100000 - 1 in
  let n0 := magnitude 8 p q est in
  let '(s, n, k) := shortest 17 x p q n0 1 in
  let ds := Str.decimal s in
  let zeros := Str.repeat0 (if k <=? n then n - k else - n) in
  let head := substring O (Z.to_nat n) ds in
  let tail := substring (Z.to_nat n) (Z.to_nat (k - n)) ds in
  let first := substring O 1 ds in
  let others := substring 1 (Z.to_nat (k - 1)) ds in
  if (k <=? n) && (n <=? 21) then (ds ++ zeros)%string
  else if (0 <? n) && (n <=? 21) then (head ++ "." ++ tail)%string
  else if (-6 <? n) && (n <=? 0) then ("0." ++ zeros ++ ds)%string
  else if k =? 1 then (ds ++ exponent_text n)%string
  else (first ++ "." ++ others ++ exponent_text n)%string.

Definition toString (x : number) : string :=
  match x with
  | S754_nan => "NaN"
  | S754_zero _ => "0"
  | S754_infinity s => if s then "-Infinity" else "Infinity"
  | S754_finite s m e =>
      let t := positive_toString (S754_finite false m e) in
      if s then ("-" ++ t)%string else t
  end.

End Num.

(** ** Completions *)

Inductive JsError : Type :=
| TypeError
| SyntaxError
| StoreError.

(** Outcome of evaluating an expression or awaiting a promise: a value, or
    an exception on its way to the nearest [catch]. *)
Inductive Completion (A : Type) : Type :=
| Normal (a : A)
| Throw (e : JsError).

Arguments Normal {A} a.
Arguments Throw {A} e.

Definition cbind {A B : Type} (c : Completion A) (f : A -> Completion B) : Completion B :=
  match c with
  | Normal a => f a
  | Throw e => Throw e
  end.

Definition cmap {A B : Type} (f : A -> B) (c : Completion A) : Completion B :=
  cbind c (fun a => Normal (f a)).

(** ** Values of a decoded request body *)

(** What [request.json()] yields and what [readBody] builds from a form:
    JSON data, with [undefined] for what a property read does not find.
    An object is the list of its own properties, each key once. *)
Inductive value : Type :=
| VUndefined
| VNull
| VBool (b : bool)
| VNum (x : Num.number)
| VStr (s : string)
| VArr (items : list value)
| VObj (props : list (string * value)).

Module Js.

Fixpoint lookup {A : Type} (k : string) (l : list (string * A)) : option A :=
  match l with
  | [] => None
  | (k', v) :: r => if String.eqb k k' then Some v else lookup k r
  end.

Definition has_own (k : string) (props : list (string * value)) : bool :=
  match lookup k props with
  | Some _ => true
  | None => false
  end.

(** Truthiness, as tested by [!x], [x ? a : b] and [x || y]. *)
Definition ToBoolean (v : value) : bool :=
  match v with
  | VUndefined | VNull => false
  | VBool b => b
  | VNum (S754_zero _) | VNum S754_nan => false
  | VNum _ => true
  | VStr s => negb (String.eqb s "")
  | VArr _ | VObj _ => true
  end.

(** [v === undefined || v === null], the test behind [??]. *)
Definition nullish (v : value) : bool :=
  match v with
  | VUndefined | VNull => true
  | _ => false
  end.

Definition is_undefined (v : value) : bool :=
  match v with
  | VUndefined => true
  | _ => false
  end.

(** Property read [o.k] for the field names the handlers use
    ([productId], [product_id], [rating], [title], [body], [review],
    [author_name], [author_email], [product_handle]): none of them is
    inherited from a built-in prototype, so the read finds an own property
    of an object or nothing.  Reading from [null] or [undefined] throws. *)
Definition get (o : value) (k : string) : Completion value :=
  match o with
  | VUndefined | VNull => Throw TypeError
  | VObj props =>
      match lookup k props with
      | Some v => Normal v
      | None => Normal VUndefined
      end
  | _ => Normal VUndefined
  end.

(** [String(v)].  An array is joined with commas, [null] and [undefined]
    items giving the empty string.  A plain object gives
    "[object Object]" unless it has an own property [toString]: decoded
    data is never callable, so the conversion then finds no method that
    yields a primitive and throws. *)
Fixpoint ToString (v : value) : Completion string :=
  match v with
  | VUndefined => Normal "undefined"
  | VNull => Normal "null"
  | VBool b => Normal (if b then "true" else "false")
  | VNum x => Normal (Num.toString x)
  | VStr s => Normal s
  | VArr items =>
      let item (x : value) : Completion string :=
        if nullish x then Normal "" else ToString x in
      cmap (Str.join ",")
        ((fix all (l : list value) : Completion (list string) :=
            match l with
            | [] => Normal []
            | x :: r =>
                cbind (item x) (fun s => cbind (all r) (fun ss => Normal (s :: ss)))
            end) items)
  | VObj props =>
      if has_own "toString" props then Throw TypeError
      else Normal "[object Object]"
  end.

(** [Number(v)] *)
Definition ToNumber (v : value) : Completion Num.number :=
  match v with
  | VUndefined => Normal Num.NaN
  | VNull => Normal Num.zero
  | VBool b => Normal (Num.of_Z (if b then 1 else 0))
  | VNum x => Normal x
  | VStr s => Normal (Num.StringToNumber s)
  | VArr _ | VObj _ => cmap Num.StringToNumber (ToString v)
  end.

(** [BigInt(String(v))] *)
Definition ToBigInt (v : value) : Completion Z :=
  cbind (ToString v) (fun s =>
    match Numeral.StringToBigInt s with
    | Some z => Normal z
    | None => Throw SyntaxError
    end).

(** Truthiness of a string-or-null, as returned by [Headers.get] and
    [URLSearchParams.get]. *)
Definition truthy (o : option string) : bool :=
  match o with
  | Some s => negb (String.eqb s "")
  | None => false
  end.

(** [a || b] on string-or-null operands *)
Definition or_else (a b : option string) : option string :=
  if truthy a then a else b.

(** [obj[k] = v] for a string [v] on an object built from a form: the
    assignment to [__proto__] goes to the prototype setter, which ignores
    a primitive; any other key is created or overwritten. *)
Fixpoint assign (props : list (string * value)) (k : string) (v : value)
  : list (string * value) :=
  match props with
  | [] => [(k, v)]
  | (k', v') :: r =>
      if String.eqb k k' then (k', v) :: r else (k', v') :: assign r k v
  end.

Definition set (props : list (string * value)) (k : string) (v : string)
  : list (string * value) :=
  if String.eqb k "__proto__" then props else assign props k (VStr v).

End Js.

(** ** Requests *)

(** [new URL(request.url)]: the host, with the port when it is not the
    default one, and the decoded query parameters in their order. *)
Record URL : Type := mkURL {
  host : string;
  searchParams : list (string * string)
}.

(** A request as the handlers observe it: [json] and [formData] hold what
    the methods of these names settle to for the request's body, a parse
    failure being a [Throw]; the entries of a URL-encoded form are
    strings. *)
Record Request : Type := mkRequest {
  method : string;
  headers : list (string * string);
  url : URL;
  json : Completion value;
  formData : Completion (list (string * string))
}.

(** [headers.get(name)]: names compare case-insensitively and the values of
    a repeated header are combined. *)
Definition Headers_get (h : list (string * string)) (name : string) : option string :=
  let same (kv : string * string) :=
    String.eqb (Str.lowercase (fst kv)) (Str.lowercase name) in
  match map snd (filter same h) with
  | [] => None
  | vs => Some (Str.join ", " vs)
  end.

(** [url.searchParams.get(name)]: the first value of the parameter *)
Definition searchParams_get (u : URL) (name : string) : option string :=
  Js.lookup name (searchParams u).

(** [/\.myshopify\.com$/i.test(host)]: the input ends with the fourteen
    characters of the pattern, letters compared without case. *)
Fixpoint prefix_ci (t s : list ascii) : bool :=
  match t, s with
  | [], _ => true
  | a :: t', b :: s' => Ascii.eqb (Str.lower a) (Str.lower b) && prefix_ci t' s'
  | _ :: _, [] => false
  end.

Definition myshopify_suffix : string := ".myshopify.com".

Definition test_myshopify (host : string) : bool :=
  prefix_ci (rev (Str.chars myshopify_suffix)) (rev (Str.chars host)).

(** Try to resolve the shop domain from header, query, or hostname *)
Definition getShopFromRequest (request : Request) : option string :=
  let hdr := Headers_get (headers request) "x-shopify-shop-domain" in
  if Js.truthy hdr then hdr
  else
    let q := searchParams_get (url request) "shop" in
    if Js.truthy q then q
    else
      let host :=
        Js.or_else (Headers_get (headers request) "x-forwarded-host")
          (Js.or_else (Headers_get (headers request) "host")
             (Some (host (url request)))) in
      if Js.truthy host && match host with
                           | Some h => test_myshopify h
                           | None => false
                           end
      then host
      else None.

(** Read JSON or form-encoded bodies *)
Definition readBody (request : Request) : Completion value :=
  let ct :=
    match Js.or_else (Headers_get (headers request) "content-type") (Some "") with
    | Some s => s
    | None => ""
    end in
  if Str.includes ct "application/json" then json request
  else if Str.includes ct "application/x-www-form-urlencoded" then
    cbind (formData request) (fun form =>
      Normal (VObj (fold_left (fun obj kv => Js.set obj (fst kv) (snd kv)) form [])))
  else
    match json request with
    | Normal v => Normal v
    | Throw _ => Normal (VObj [])
    end.

(** ** The review table and the store client *)

(** [ReviewStatus], the enum of the schema:
    [CREATE TYPE "ReviewStatus" AS ENUM ('pending', 'approved', 'rejected')]. *)
Inductive ReviewStatus : Type :=
| pending
| approved
| rejected.

Definition ReviewStatus_name (s : ReviewStatus) : string :=
  match s with
  | pending => "pending"
  | approved => "approved"
  | rejected => "rejected"
  end.

(** What a property read on the enum object can find: a status, or a
    property that the object inherits from [Object.prototype].  The
    inherited properties are functions (under [__proto__], the prototype
    itself): none of them is a status and none is [null] or [undefined]. *)
Inductive EnumMember : Type :=
| Member (s : ReviewStatus)
| Inherited (name : string).

(** The property names of [Object.prototype] *)
Definition Object_prototype : list string :=
  [ "constructor"; "hasOwnProperty"; "isPrototypeOf"; "propertyIsEnumerable";
    "toLocaleString"; "toString"; "valueOf"; "__proto__";
    "__defineGetter__"; "__defineSetter__"; "__lookupGetter__";
    "__lookupSetter__" ].

(** Modelled from the spec: the enum object [ReviewStatus] that the store
    client exports, which is not part of the handlers' source: an ordinary
    object with one own property per known status.  [ReviewStatus[name]]
    is a property read with a key chosen by the caller: it finds the status
    called [name], else what [Object.prototype] holds under [name], else
    nothing ([undefined], here [None]). *)
Definition ReviewStatus_lookup (name : string) : option EnumMember :=
  if String.eqb name "pending" then Some (Member pending)
  else if String.eqb name "approved" then Some (Member approved)
  else if String.eqb name "rejected" then Some (Member rejected)
  else if existsb (String.eqb name) Object_prototype then Some (Inherited name)
  else None.

Definition ReviewStatus_eqb (a b : ReviewStatus) : bool :=
  match a, b with
  | pending, pending | approved, approved | rejected, rejected => true
  | _, _ => false
  end.

(** A row of the table [Review] (columns of the two migrations, in order)
    as the store client returns it: [productId] is a BigInt, [createdAt] a
    [Date], given by its time value in milliseconds. *)
Module Review.
Record t : Type := mk {
  id : string;
  shopDomain : string;
  productId : Z;
  productHandle : option string;
  rating : Num.number;
  title : option string;
  body : string;
  authorName : string;
  authorEmail : option string;
  status : ReviewStatus;
  createdAt : Z
}.
End Review.

(** The [data] argument of [prisma.review.create] *)
Module CreateData.
Record t : Type := mk {
  shopDomain : string;
  productId : Z;
  productHandle : option string;
  rating : Num.number;
  title : option string;
  body : string;
  authorName : string;
  authorEmail : option string;
  status : ReviewStatus
}.
End CreateData.

Inductive SortOrder : Type :=
| asc
| desc.

(** The argument of [prisma.review.findMany] *)
Module FindManyArgs.
Record t : Type := mk {
  where_shopDomain : string;
  where_productId : Z;
  where_status : EnumMember;
  orderBy_createdAt : SortOrder;
  take : Z
}.
End FindManyArgs.

(** ** Handler programs

    A handler runs JavaScript up to its next store call, hands the call to
    the store client and continues with what the awaited promise settles
    to.  [Done] is the end of the handler: a returned value or an uncaught
    exception. *)
Inductive Prog (A : Type) : Type :=
| Done (c : Completion A)
| Create (data : CreateData.t) (k : Completion Review.t -> Prog A)
| FindMany (args : FindManyArgs.t) (k : Completion (list Review.t) -> Prog A).

Arguments Done {A} c.
Arguments Create {A} data k.
Arguments FindMany {A} args k.

Fixpoint pbind {A B : Type} (m : Prog A) (f : A -> Prog B) : Prog B :=
  match m with
  | Done (Normal a) => f a
  | Done (Throw e) => Done (Throw e)
  | Create d k => Create d (fun r => pbind (k r) f)
  | FindMany q k => FindMany q (fun r => pbind (k r) f)
  end.

(** [try { m } catch { h }] *)
Fixpoint try_catch {A : Type} (m : Prog A) (h : JsError -> Prog A) : Prog A :=
  match m with
  | Done (Normal a) => Done (Normal a)
  | Done (Throw e) => h e
  | Create d k => Create d (fun r => try_catch (k r) h)
  | FindMany q k => FindMany q (fun r => try_catch (k r) h)
  end.

Definition ret {A : Type} (a : A) : Prog A := Done (Normal a).

(** [await prisma.review.create({ data })] *)
Definition review_create (data : CreateData.t) : Prog Review.t :=
  Create data Done.

(** [await prisma.review.findMany(args)] *)
Definition review_findMany (args : FindManyArgs.t) : Prog (list Review.t) :=
  FindMany args Done.

Notation "x <- c ;; k" := (pbind c (fun x => k))
  (at level 61, c at next level, right associativity).

(** A handler that makes no store call *)
Definition no_store_call {A : Type} (m : Prog A) : Prop :=
  match m with
  | Done _ => True
  | _ => False
  end.

(** ** Response encoding *)

(** What the handlers pass to [JSON.stringify]: plain data, BigInts and
    dates. *)
Inductive data : Type :=
| DNull
| DBool (b : bool)
| DNum (x : Num.number)
| DStr (s : string)
| DBigInt (z : Z)
| DDate (t : Z)
| DArr (items : list data)
| DObj (props : list (string * data)).

(** The JSON text that is written, as a tree. *)
Inductive Json : Type :=
| JNull
| JBool (b : bool)
| JNum (x : Num.number)
| JStr (s : string)
| JArr (items : list Json)
| JObj (members : list (string * Json)).

Module Date.

(** Left-padding with zeros to [width] digits *)
Definition pad (width : nat) (n : Z) : string :=
  let d := Str.decimal n in
  (Str.repeat0 (Z.of_nat width - Z.of_nat (String.length d)) ++ d)%string.

(** Year, month and day of a day number counted from 1970-01-01 *)
Definition civil (days : Z) : Z * Z * Z :=
  let z := days + 719468 in
  let era := z / 146097 in
  let doe := z - era * 146097 in
  let yoe := (doe - doe / 1460 + doe / 36524 - doe / 146096) / 365 in
  let doy := doe - (365 * yoe + yoe / 4 - yoe / 100) in
  let mp := (5 * doy + 2) / 153 in
  let d := doy - (153 * mp + 2) / 5 + 1 in
  let m := if mp <? 10 then mp + 3 else mp - 9 in
  let y := yoe + era * 400 + (if m <=? 2 then 1 else 0) in
  (y, m, d).

(** [Date.prototype.toJSON]: the ISO text of a valid time value, [null]
    (here [None]) for an invalid date. *)
Definition toJSON (t : Z) : option string :=
  if 8640000000000000 <? Z.abs t then None
  else
    let '(y, m, d) := civil (t / 86400000) in
    let ms := t mod 86400000 in
    let sign := if y <? 0 then "-" else "+" in
    let year :=
      if (0 <=? y) && (y <=? 9999) then pad 4 y
      else (sign ++ pad 6 (Z.abs y))%string in
    let hh := pad 2 (ms / 3600000) in
    let mm := pad 2 (ms / 60000 mod 60) in
    let ss := pad 2 (ms / 1000 mod 60) in
    let sss := pad 3 (ms mod 1000) in
    Some (year ++ "-" ++ pad 2 m ++ "-" ++ pad 2 d ++ "T"
          ++ hh ++ ":" ++ mm ++ ":" ++ ss ++ "." ++ sss ++ "Z")%string.

End Date.

Module JSON.

Definition dquote : ascii := "034"%char.

Definition hex_digit (n : Z) : ascii :=
  ascii_of_N (Z.to_N (if n <? 10 then 48 + n else 87 + n)).

(** [QuoteJSONString] *)
Definition escape (c : ascii) : string :=
  let n := Str.code c in
  if n =? 8 then "\b"
  else if n =? 9 then "\t"
  else if n =? 10 then "\n"
  else if n =? 12 then "\f"
  else if n =? 13 then "\r"
  else if n =? 34 then String "\"%char (String dquote "")
  else if n =? 92 then "\\"
  else if n <? 32 then
    ("\u00" ++ String (hex_digit (n / 16)) (String (hex_digit (n mod 16)) ""))%string
  else String c "".

Definition quote (s : string) : string :=
  (String dquote (concat "" (map escape (Str.chars s))) ++ String dquote "")%string.

Fixpoint render (j : Json) : string :=
  match j with
  | JNull => "null"
  | JBool b => if b then "true" else "false"
  | JNum x => Num.toString x
  | JStr s => quote s
  | JArr items =>
      ("[" ++ Str.join "," (map render items) ++ "]")%string
  | JObj members =>
      ("{" ++ Str.join ","
                (map (fun kv => (quote (fst kv) ++ ":" ++ render (snd kv))%string) members)
           ++ "}")%string
  end.

(** [BigInt.prototype.toString] *)
Definition BigInt_toString (z : Z) : string := Str.decimal z.

(** The walk of [JSON.stringify(data, (_k, v) => typeof v === "bigint" ?
    v.toString() : v)] over a value: a date is first replaced by its
    [toJSON()], the replacer then turns a bigint into its decimal text and
    leaves every other value as it is, and a number that is not finite is
    written as [null]. *)
Fixpoint serialize (v : data) : Json :=
  match v with
  | DNull => JNull
  | DBool b => JBool b
  | DNum x => if Num.isFinite x then JNum x else JNull
  | DStr s => JStr s
  | DBigInt z => JStr (BigInt_toString z)
  | DDate t =>
      match Date.toJSON t with
      | Some s => JStr s
      | None => JNull
      end
  | DArr items => JArr (map serialize items)
  | DObj props => JObj (map (fun kv => (fst kv, serialize (snd kv))) props)
  end.

Definition stringify (v : data) : string := render (serialize v).

End JSON.

Module Response.
Record t : Type := mk {
  status : Z;
  headers : list (string * string);
  body : string
}.
End Response.

(** JSON that safely stringifies BigInt *)
Definition safeJson (d : data) (status : Z) : Response.t :=
  Response.mk status [("Content-Type", "application/json")] (JSON.stringify d).

Definition nullable (o : option string) : data :=
  match o with
  | Some s => DStr s
  | None => DNull
  end.

(** A row as the object the store client returns *)
Definition Review_data (r : Review.t) : data :=
  DObj [ ("id", DStr (Review.id r));
         ("shopDomain", DStr (Review.shopDomain r));
         ("productId", DBigInt (Review.productId r));
         ("productHandle", nullable (Review.productHandle r));
         ("rating", DNum (Review.rating r));
         ("title", nullable (Review.title r));
         ("body", DStr (Review.body r));
         ("authorName", DStr (Review.authorName r));
         ("authorEmail", nullable (Review.authorEmail r));
         ("status", DStr (ReviewStatus_name (Review.status r)));
         ("createdAt", DDate (Review.createdAt r)) ].

(** [{ ok: false, error }] *)
Definition failure (error : string) : data :=
  DObj [("ok", DBool false); ("error", DStr error)].

(** ** The handlers *)

Definition missing_shop_get : string :=
  "Missing shop. Ensure you call via the App Proxy (/apps/<subpath>) or add ?shop=<domain>.".

Definition missing_shop_post : string :=
  "Missing shop. Ensure you post to the App Proxy (/apps/<subpath>) or add ?shop=<domain>.".

Definition string_of (o : option string) : string :=
  match o with
  | Some s => s
  | None => ""
  end.

(** [a ?? b] on string-or-null operands *)
Definition coalesce (a b : option string) : option string :=
  match a with
  | Some _ => a
  | None => b
  end.

(** [BigInt(String(s))] for a string [s] *)
Definition BigInt_of_string (s : string) : Completion Z := Js.ToBigInt (VStr s).

(** GET /apps/<proxy>/reviews?product_id=...&status=approved *)
Definition loader (request : Request) : Prog Response.t :=
  try_catch
    (let shop := getShopFromRequest request in
     if negb (Js.truthy shop) then
       ret (safeJson (failure missing_shop_get) 401)
     else
       let productIdRaw :=
         string_of
           (coalesce (searchParams_get (url request) "product_id")
              (coalesce (searchParams_get (url request) "productId") (Some ""))) in
       if String.eqb productIdRaw "" then
         ret (safeJson (failure "Missing product_id") 400)
       else
         match BigInt_of_string productIdRaw with
         | Throw _ => ret (safeJson (failure "Invalid product_id") 400)
         | Normal pid =>
             let statusParam :=
               string_of (coalesce (searchParams_get (url request) "status")
                            (Some "approved")) in
             reviews <-
               review_findMany
                 (FindManyArgs.mk (string_of shop) pid
                    (match ReviewStatus_lookup statusParam with
                     | Some s => s
                     | None => Member approved
                     end)
                    desc 50) ;;
             ret (safeJson
                    (DObj [("ok", DBool true);
                           ("reviews", DArr (map Review_data reviews))])
                    200)
         end)
    (fun _ => ret (safeJson (failure "Failed to load reviews") 500)).

(** The block [// Normalize inputs] of [action] *)
Record Inputs : Type := mkInputs {
  productIdRaw : value;
  ratingRaw : value;
  title : option string;
  text : string;
  authorName : string;
  authorEmail : option string;
  productHandle : option string
}.

(** [v ? String(v) : null] *)
Definition string_or_null (v : value) : Completion (option string) :=
  if Js.ToBoolean v then cmap Some (Js.ToString v) else Normal None.

(** [v ? String(v) : ""] *)
Definition string_or_empty (v : value) : Completion string :=
  if Js.ToBoolean v then Js.ToString v else Normal "".

Definition normalize (body : value) : Completion Inputs :=
  cbind (Js.get body "productId") (fun primary =>
  cbind (if Js.nullish primary then Js.get body "product_id" else Normal primary)
    (fun productIdRaw =>
  cbind (Js.get body "rating") (fun ratingRaw =>
  cbind (cbind (Js.get body "title") string_or_null) (fun title =>
  cbind (cbind (Js.get body "body") (fun b =>
           if negb (Js.is_undefined b) then Js.ToString b
           else
             cbind (Js.get body "review") (fun r =>
               if negb (Js.is_undefined r) then Js.ToString r else Normal "")))
    (fun text =>
  cbind (cbind (Js.get body "author_name") string_or_empty) (fun authorName =>
  cbind (cbind (Js.get body "author_email") string_or_null) (fun authorEmail =>
  cbind (cbind (Js.get body "product_handle") string_or_null) (fun productHandle =>
  Normal (mkInputs productIdRaw ratingRaw title text authorName authorEmail
            productHandle))))))))).

Definition lift {A : Type} (c : Completion A) : Prog A := Done c.

(** [!Number.isFinite(rating) || rating < 1 || rating > 5] *)
Definition rating_out_of_range (rating : Num.number) : bool :=
  negb (Num.isFinite rating)
  || Num.lt rating (Num.of_Z 1)
  || Num.gt rating (Num.of_Z 5).

(** POST /apps/<proxy>/reviews *)
Definition action (request : Request) : Prog Response.t :=
  if negb (String.eqb (method request) "POST") then
    ret (safeJson (failure "Method not allowed") 405)
  else
    try_catch
      (let shop := getShopFromRequest request in
       if negb (Js.truthy shop) then
         ret (safeJson (failure missing_shop_post) 401)
       else
         body <- lift (readBody request) ;;
         i <- lift (normalize body) ;;
         (* Validate *)
         if negb (Js.ToBoolean (productIdRaw i)) then
           ret (safeJson (failure "product_id is required") 400)
         else
           match Js.ToBigInt (productIdRaw i) with
           | Throw _ => ret (safeJson (failure "Invalid product_id") 400)
           | Normal pid =>
               rating <- lift (Js.ToNumber (ratingRaw i)) ;;
               if rating_out_of_range rating then
                 ret (safeJson (failure "rating must be between 1 and 5") 400)
               else if (String.eqb (authorName i) "") || (String.eqb (text i) "") then
                 ret (safeJson (failure "author_name and body are required") 400)
               else
                 created <-
                   review_create
                     (CreateData.mk (string_of shop) pid (productHandle i) rating
                        (title i) (text i) (authorName i) (authorEmail i) pending) ;;
                 ret (safeJson
                        (DObj [("ok", DBool true); ("review", Review_data created)])
                        200)
           end)
      (fun _ => ret (safeJson (failure "Failed to submit review") 500)).

(** ** The store

    Modelled from the spec: the Review Store Gateway, that is the store
    client behind [prisma.review] and the table it reads and writes, which
    are not part of the handlers' source.  Create persists one new row with
    a generated identifier and creation time and returns it; list returns
    the rows of the tenant, product and status asked for, newest first, at
    most [take] of them.  The columns are typed as the migration declares
    them: [rating] INTEGER, [productId] BIGINT and [status] "ReviewStatus";
    a value that does not fit is refused and the call fails. *)
Module Store.

Definition Db : Type := list Review.t.

(** What the store generates for a new row *)
Record Fresh : Type := mkFresh {
  fresh_id : string;
  now : Z
}.

Definition fits_int32 (x : Num.number) : bool :=
  Num.isInteger x && (- 2 ^ 31 <=? Num.to_Z x) && (Num.to_Z x <? 2 ^ 31).

Definition fits_int64 (z : Z) : bool := (- 2 ^ 63 <=? z) && (z <? 2 ^ 63).

Definition row (f : Fresh) (d : CreateData.t) : Review.t :=
  Review.mk (fresh_id f) (CreateData.shopDomain d) (CreateData.productId d)
    (CreateData.productHandle d) (CreateData.rating d) (CreateData.title d)
    (CreateData.body d) (CreateData.authorName d) (CreateData.authorEmail d)
    (CreateData.status d) (now f).

Definition create (f : Fresh) (d : CreateData.t) (db : Db)
  : Completion Review.t * Db :=
  if fits_int32 (CreateData.rating d) && fits_int64 (CreateData.productId d)
  then (Normal (row f d), db ++ [row f d])
  else (Throw StoreError, db).

Definition fits_status (m : EnumMember) : bool :=
  match m with
  | Member _ => true
  | Inherited _ => false
  end.

Definition matches (q : FindManyArgs.t) (r : Review.t) : bool :=
  String.eqb (Review.shopDomain r) (FindManyArgs.where_shopDomain q)
  && (Review.productId r =? FindManyArgs.where_productId q)
  && match FindManyArgs.where_status q with
     | Member s => ReviewStatus_eqb (Review.status r) s
     | Inherited _ => false
     end.

(** [a] comes before [b] in the requested order *)
Definition before (o : SortOrder) (a b : Review.t) : bool :=
  match o with
  | desc => Review.createdAt b <? Review.createdAt a
  | asc => Review.createdAt a <? Review.createdAt b
  end.

Fixpoint insert (o : SortOrder) (x : Review.t) (l : list Review.t) : list Review.t :=
  match l with
  | [] => [x]
  | y :: r => if before o x y then x :: l else y :: insert o x r
  end.

Definition sort (o : SortOrder) (l : list Review.t) : list Review.t :=
  fold_right (insert o) [] l.

Definition findMany (q : FindManyArgs.t) (db : Db) : Completion (list Review.t) :=
  if fits_int64 (FindManyArgs.where_productId q)
     && fits_status (FindManyArgs.where_status q) then
    Normal (firstn (Z.to_nat (FindManyArgs.take q))
              (sort (FindManyArgs.orderBy_createdAt q) (filter (matches q) db)))
  else Throw StoreError.

(** Run a handler against the store. *)
Fixpoint run {A : Type} (f : Fresh) (m : Prog A) (db : Db) : Completion A * Db :=
  match m with
  | Done c => (c, db)
  | Create d k => let (r, db') := create f d db in run f (k r) db'
  | FindMany q k => run f (k (findMany q db)) db
  end.

End Store.

(** ** Vocabulary of the statements *)

(** *** Sources of the tenant identifier *)

Definition tenant_header (request : Request) : option string :=
  Headers_get (headers request) "x-shopify-shop-domain".

Definition shop_param (request : Request) : option string :=
  searchParams_get (url request) "shop".

Definition forwarded_host (request : Request) : option string :=
  Headers_get (headers request) "x-forwarded-host".

Definition host_header (request : Request) : option string :=
  Headers_get (headers request) "host".

(** The host that is tested against the pattern: the first non-empty one
    of the forwarded-host header, the host header and the host of the
    request URL. *)
Definition host_candidate (request : Request) : option string :=
  Js.or_else (forwarded_host request)
    (Js.or_else (host_header request) (Some (host (url request)))).

Definition ends_with_myshopify (h : string) : Prop :=
  exists p, Str.lowercase h = (p ++ ".myshopify.com")%string.

(** The first source that yields a value *)
Fixpoint first_yielding (sources : list (option string)) : option string :=
  match sources with
  | [] => None
  | s :: r => if Js.truthy s then s else first_yielding r
  end.

(** A host-derived value: accepted only if it matches the pattern,
    otherwise absent. *)
Definition accepted_host (h : option string) : option string :=
  match h with
  | Some x => if test_myshopify x then h else None
  | None => None
  end.

(** The resolution order in the words of the specification: the tenant
    header, then the [shop] parameter, then the forwarded-host or host
    header, accepted only if it matches the pattern. *)
Definition resolution_as_specified (request : Request) : option string :=
  first_yielding
    [ tenant_header request;
      shop_param request;
      accepted_host (Js.or_else (forwarded_host request) (host_header request)) ].

(** *** Parameters and content type *)

(** [url.searchParams.get("product_id") ?? url.searchParams.get("productId") ?? ""] *)
Definition product_id_param (request : Request) : string :=
  string_of
    (coalesce (searchParams_get (url request) "product_id")
       (coalesce (searchParams_get (url request) "productId") (Some ""))).

Definition status_param (request : Request) : option string :=
  searchParams_get (url request) "status".

(** The status parameter is absent or names no member of the enum. *)
Definition no_known_status (request : Request) : Prop :=
  match status_param request with
  | None => True
  | Some s => s <> "pending" /\ s <> "approved" /\ s <> "rejected"
  end.

(** The status parameter names a property that the enum object does not
    own but inherits. *)
Definition names_inherited (request : Request) : Prop :=
  match status_param request with
  | Some s => In s Object_prototype
  | None => False
  end.

(** [ReviewStatus[statusParam] ?? ReviewStatus.approved] *)
Definition status_filter (request : Request) : EnumMember :=
  match ReviewStatus_lookup
          (string_of (coalesce (status_param request) (Some "approved"))) with
  | Some s => s
  | None => Member approved
  end.

(** [request.headers.get("content-type") || ""] *)
Definition content_type (request : Request) : string :=
  string_of (Js.or_else (Headers_get (headers request) "content-type") (Some "")).

Definition declares_json (request : Request) : bool :=
  Str.includes (content_type request) "application/json".

Definition declares_form (request : Request) : bool :=
  Str.includes (content_type request) "application/x-www-form-urlencoded".

(** *** Outcomes of a handler *)

(** A completion the handler can end with, whatever the store answers to
    its calls. *)
Inductive ends_with {A : Type} : Prog A -> Completion A -> Prop :=
| ends_done (c : Completion A) : ends_with (Done c) c
| ends_create (d : CreateData.t) (k : Completion Review.t -> Prog A)
    (r : Completion Review.t) (c : Completion A) :
    ends_with (k r) c -> ends_with (Create d k) c
| ends_findMany (q : FindManyArgs.t) (k : Completion (list Review.t) -> Prog A)
    (r : Completion (list Review.t)) (c : Completion A) :
    ends_with (k r) c -> ends_with (FindMany q k) c.

(** A call to the store client *)
Inductive StoreCall : Type :=
| CreateCall (data : CreateData.t)
| FindManyCall (args : FindManyArgs.t).

(** The store calls of a complete run of a handler, in their order,
    whatever the store answers to each of them. *)
Inductive store_calls {A : Type} : Prog A -> list StoreCall -> Prop :=
| calls_done (c : Completion A) : store_calls (Done c) []
| calls_create (d : CreateData.t) (k : Completion Review.t -> Prog A)
    (r : Completion Review.t) (l : list StoreCall) :
    store_calls (k r) l -> store_calls (Create d k) (CreateCall d :: l)
| calls_findMany (q : FindManyArgs.t) (k : Completion (list Review.t) -> Prog A)
    (r : Completion (list Review.t)) (l : list StoreCall) :
    store_calls (k r) l -> store_calls (FindMany q k) (FindManyCall q :: l).

Definition bad_request (error : string) : Prog Response.t :=
  ret (safeJson (failure error) 400).

Definition server_error (error : string) : Prog Response.t :=
  ret (safeJson (failure error) 500).

(** Body of the response of a handler that ends without a store call *)
Definition answer_body (m : Prog Response.t) : string :=
  match m with
  | Done (Normal r) => Response.body r
  | _ => ""
  end.

(** [{ ok: true, review }] and [{ ok: true, reviews }] *)
Definition created_payload (r : Review.t) : data :=
  DObj [("ok", DBool true); ("review", Review_data r)].

Definition listing_payload (rows : list Review.t) : data :=
  DObj [("ok", DBool true); ("reviews", DArr (map Review_data rows))].

(** The text of a JSON string that needs no escape: [s] between two
    quotation marks. *)
Definition quoted (s : string) : string :=
  String JSON.dquote (s ++ String JSON.dquote "").

(** The text of a member [productId] whose value is the string [s] *)
Definition productId_member (s : string) : string :=
  (quoted "productId" ++ ":" ++ quoted s)%string.

(** The text [t] occurs in [s]. *)
Definition occurs (t s : string) : Prop :=
  exists pre post, s = (pre ++ t ++ post)%string.

(** The body of a response shows an object member [productId] with the
    string [s] as its value. *)
Definition shows_productId (body s : string) : bool :=
  Str.includes body (productId_member s).

(** Member of a JSON object *)
Definition member (k : string) (j : Json) : option Json :=
  match j with
  | JObj members => Js.lookup k members
  | _ => None
  end.

(** *** Submissions *)

(** A POST whose tenant is resolved, whose body was read and whose inputs
    were normalised without an exception. *)
Definition submission (request : Request) (shop : string) (body : value) (i : Inputs)
  : Prop :=
  method request = "POST" /\
  getShopFromRequest request = Some shop /\
  readBody request = Normal body /\
  normalize body = Normal i.

(** The data [action] hands to the store for the inputs [i] *)
Definition create_data (shop : string) (pid : Z) (rating : Num.number) (i : Inputs)
  : CreateData.t :=
  CreateData.mk shop pid (productHandle i) rating (title i) (text i)
    (authorName i) (authorEmail i) pending.

(** *** Requests and rows used as examples *)

Definition no_body : Completion value := Throw TypeError.
Definition no_form : Completion (list (string * string)) := Throw TypeError.

(** A request that carries no tenant header, no [shop] parameter and no
    host header, sent to a shop's own domain. *)
Definition bare_request (m : string) : Request :=
  mkRequest m [] (mkURL "shop1.myshopify.com" []) no_body no_form.

Definition tenant : string * string := ("X-Shopify-Shop-Domain", "a.myshopify.com").

(** A POST through the proxy of shop [a.myshopify.com] with a JSON body *)
Definition json_post (body : Completion value) : Request :=
  mkRequest "POST" [tenant; ("Content-Type", "application/json")]
    (mkURL "app.example.com" []) body no_form.

(** The same with a content type that declares neither JSON nor a form *)
Definition plain_post (body : Completion value) : Request :=
  mkRequest "POST" [tenant; ("Content-Type", "text/plain")]
    (mkURL "app.example.com" []) body no_form.

(** A list request of shop [a.myshopify.com] *)
Definition list_get (params : list (string * string)) : Request :=
  mkRequest "GET" [tenant] (mkURL "app.example.com" params) no_body no_form.

Definition num (z : Z) : value := VNum (Num.of_Z z).

(** 2.5 *)
Definition two_and_a_half : Num.number := Num.of_decimal false 25 (-1).

(** The identifier of the round-trip example *)
Definition big_id : string := "123456789012345".

(** A complete submission with the given identifier and rating *)
Definition review_body (product_id rating : value) : value :=
  VObj [ ("product_id", product_id); ("rating", rating);
         ("body", VStr "Great"); ("author_name", VStr "Ana") ].

(** What the store generates for the first and the second call *)
Definition fresh1 : Store.Fresh := Store.mkFresh "r1" 1761955200000.
Definition fresh2 : Store.Fresh := Store.mkFresh "r2" 1761955260000.

(** The row the store adds for the example submissions *)
Definition example_row (pid : Z) (rating : Z) : Review.t :=
  Review.mk "r1" "a.myshopify.com" pid None (Num.of_Z rating) None "Great" "Ana"
    None pending 1761955200000.

(** *** Vocabulary of the further properties *)

(** The three shapes of a response the handlers build: a failure with its
    message, the created review, a listing. *)
Inductive answer : Response.t -> Prop :=
| answer_failure (error : string) (st : Z) :
    st <> 200 -> answer (safeJson (failure error) st)
| answer_created (r : Review.t) : answer (safeJson (created_payload r) 200)
| answer_listing (rows : list Review.t) :
    answer (safeJson (listing_payload rows) 200).

(** The value a form gives to a field: that of its last entry with the key *)
Fixpoint last_value (k : string) (form : list (string * string)) : option string :=
  match form with
  | [] => None
  | (k', v) :: r =>
      match last_value k r with
      | Some w => Some w
      | None => if String.eqb k k' then Some v else None
      end
  end.

(** An object all of whose properties are strings *)
Definition all_strings (props : list (string * value)) : Prop :=
  Forall (fun kv => exists s, snd kv = VStr s) props.

(** A value read from an object of strings is a string or [undefined]. *)
Definition string_or_undefined (v : value) : Prop :=
  v = VUndefined \/ exists s, v = VStr s.

(** Rows from the newest to the oldest *)
Fixpoint newest_first (l : list Review.t) : Prop :=
  match l with
  | [] => True
  | x :: r =>
      Forall (fun y => Review.createdAt y <= Review.createdAt x) r /\ newest_first r
  end.

(** The characters of a decimal numeral *)
Definition decimal_chars : list ascii :=
  ["0"; "1"; "2"; "3"; "4"; "5"; "6"; "7"; "8"; "9"]%char.

(** Value of a decimal numeral read from the left, continuing [acc] *)
Fixpoint uint_value (d : Decimal.uint) (acc : Z) : Z :=
  match d with
  | Decimal.Nil => acc
  | Decimal.D0 l => uint_value l (acc * 10)
  | Decimal.D1 l => uint_value l (acc * 10 + 1)
  | Decimal.D2 l => uint_value l (acc * 10 + 2)
  | Decimal.D3 l => uint_value l (acc * 10 + 3)
  | Decimal.D4 l => uint_value l (acc * 10 + 4)
  | Decimal.D5 l => uint_value l (acc * 10 + 5)
  | Decimal.D6 l => uint_value l (acc * 10 + 6)
  | Decimal.D7 l => uint_value l (acc * 10 + 7)
  | Decimal.D8 l => uint_value l (acc * 10 + 8)
  | Decimal.D9 l => uint_value l (acc * 10 + 9)
  end.

(** A POST that declares a form and whose form was decoded *)
Definition form_post (request : Request) (shop : string)
    (form : list (string * string)) : Prop :=
  method request = "POST" /\
  getShopFromRequest request = Some shop /\
  declares_json request = false /\
  declares_form request = true /\
  formData request = Normal form.

(** A POST through the proxy of shop [a.myshopify.com] with a form *)
Definition form_request (form : list (string * string)) : Request :=
  mkRequest "POST" [tenant; ("Content-Type", "application/x-www-form-urlencoded")]
    (mkURL "app.example.com" []) no_body (Normal form).

(** A list request of another shop *)
Definition other_list_get (params : list (string * string)) : Request :=
  mkRequest "GET" [("X-Shopify-Shop-Domain", "b.myshopify.com")]
    (mkURL "app.example.com" params) no_body no_form.

(** * Properties *)

(** ** Strings *)

Lemma of_chars_app (a b : list ascii) :
  Str.of_chars (a ++ b) = (Str.of_chars a ++ Str.of_chars b)%string.
Proof.
  unfold Str.of_chars. induction a as [|c a IH]; simpl.
  - reflexivity.
  - now rewrite IH.
Qed.

Lemma of_chars_chars (s : string) : Str.of_chars (Str.chars s) = s.
Proof. apply string_of_list_ascii_of_string. Qed.

Lemma chars_of_chars (l : list ascii) : Str.chars (Str.of_chars l) = l.
Proof. apply list_ascii_of_string_of_list_ascii. Qed.

Lemma chars_app (a b : string) :
  Str.chars (a ++ b)%string = Str.chars a ++ Str.chars b.
Proof.
  unfold Str.chars. induction a as [|c a IH]; simpl.
  - reflexivity.
  - now rewrite IH.
Qed.

Lemma truthy_some (s : string) : Js.truthy (Some s) = true <-> s <> "".
Proof.
  simpl. destruct (String.eqb_spec s ""); simpl; split; congruence.
Qed.

Lemma truthy_false (o : option string) :
  Js.truthy o = false <-> o = None \/ o = Some "".
Proof.
  destruct o as [s|]; simpl.
  - destruct (String.eqb_spec s "") as [->|Hne]; simpl; split.
    + auto.
    + reflexivity.
    + discriminate.
    + intros [H|H]; congruence.
  - split; auto.
Qed.

(** ** Case-insensitive suffix test *)

Lemma prefix_ci_spec (t s : list ascii) :
  prefix_ci t s = true <-> exists r, map Str.lower s = map Str.lower t ++ r.
Proof.
  revert s. induction t as [|a t IH]; intros s; simpl.
  - split; [intros _; now exists (map Str.lower s) | reflexivity].
  - destruct s as [|b s]; simpl.
    + split; [discriminate | intros [r H]; discriminate].
    + rewrite andb_true_iff, IH. split.
      * intros [Hab [r Hr]]. apply Ascii.eqb_eq in Hab.
        exists r. now rewrite Hab, Hr.
      * intros [r Hr]. injection Hr as Hab Hr. split.
        -- apply Ascii.eqb_eq. now symmetry.
        -- now exists r.
Qed.

(** The pattern test holds exactly when the input, lower-cased, ends with
    [.myshopify.com]. *)
Lemma test_myshopify_spec (h : string) :
  test_myshopify h = true <->
  exists p, Str.lowercase h = (p ++ ".myshopify.com")%string.
Proof.
  unfold test_myshopify. rewrite prefix_ci_spec. unfold Str.lowercase. split.
  - intros [r Hr]. exists (Str.of_chars (rev r)).
    rewrite map_rev in Hr. apply (f_equal (@rev ascii)) in Hr.
    rewrite rev_involutive, rev_app_distr in Hr. rewrite Hr.
    rewrite of_chars_app. now f_equal.
  - intros [p Hp]. exists (rev (Str.chars p)).
    apply (f_equal Str.chars) in Hp. rewrite chars_of_chars, chars_app in Hp.
    rewrite map_rev, Hp, rev_app_distr. reflexivity.
Qed.

(** ** Tenant resolution *)

Section TenantResolution.

Variable request : Request.

Lemma getShop_unfold :
  getShopFromRequest request =
  if Js.truthy (tenant_header request) then tenant_header request
  else if Js.truthy (shop_param request) then shop_param request
  else if Js.truthy (host_candidate request)
          && match host_candidate request with
             | Some h => test_myshopify h
             | None => false
             end
       then host_candidate request
       else None.
Proof. reflexivity. Qed.

(** Whatever the resolver returns is a non-empty string. *)
Lemma getShop_truthy (shop : string) :
  getShopFromRequest request = Some shop -> Js.truthy (Some shop) = true.
Proof.
  rewrite getShop_unfold.
  destruct (Js.truthy (tenant_header request)) eqn:Hh.
  - intros <-. exact Hh.
  - destruct (Js.truthy (shop_param request)) eqn:Hq.
    + intros <-. exact Hq.
    + destruct (Js.truthy (host_candidate request)) eqn:Hc; simpl.
      * destruct (host_candidate request) as [h|]; [|discriminate].
        destruct (test_myshopify h); [|discriminate].
        intros E. injection E as <-. exact Hc.
      * discriminate.
Qed.

Lemma myshopify_nonempty (h : string) :
  test_myshopify h = true -> Js.truthy (Some h) = true.
Proof.
  destruct h; [discriminate | reflexivity].
Qed.

(** The tenant header wins when it is non-empty. *)
Lemma getShop_header (h : string) :
  tenant_header request = Some h -> h <> "" ->
  getShopFromRequest request = Some h.
Proof.
  intros Hh Hne. rewrite getShop_unfold, Hh.
  apply truthy_some in Hne. now rewrite Hne.
Qed.

(** Then the [shop] parameter. *)
Lemma getShop_param (q : string) :
  Js.truthy (tenant_header request) = false ->
  shop_param request = Some q -> q <> "" ->
  getShopFromRequest request = Some q.
Proof.
  intros Hh Hq Hne. rewrite getShop_unfold, Hh, Hq.
  apply truthy_some in Hne. now rewrite Hne.
Qed.

(** Then the host candidate, if it matches the pattern. *)
Lemma getShop_host (h : string) :
  Js.truthy (tenant_header request) = false ->
  Js.truthy (shop_param request) = false ->
  host_candidate request = Some h ->
  ends_with_myshopify h ->
  getShopFromRequest request = Some h.
Proof.
  intros Hh Hq Hc Hm. rewrite getShop_unfold, Hh, Hq, Hc.
  apply test_myshopify_spec in Hm. rewrite Hm.
  now rewrite (myshopify_nonempty _ Hm).
Qed.

Lemma getShop_no_match :
  Js.truthy (tenant_header request) = false ->
  Js.truthy (shop_param request) = false ->
  (forall h, host_candidate request = Some h -> ~ ends_with_myshopify h) ->
  getShopFromRequest request = None.
Proof.
  intros Hh Hq Hc. rewrite getShop_unfold, Hh, Hq.
  destruct (host_candidate request) as [h|]; [|now rewrite andb_false_r].
  destruct (test_myshopify h) eqn:Ht; [|now rewrite andb_false_r].
  exfalso. apply (Hc h eq_refl). now apply test_myshopify_spec.
Qed.

End TenantResolution.

(** C8 (as amended): the resolver takes the tenant header when it is
    non-empty, else the [shop] query parameter when it is non-empty, else
    the host candidate (the first non-empty one of the forwarded-host
    header, the host header and the host of the request URL) provided it
    ends with [.myshopify.com] without regard to case; when the candidate
    does not match, resolution fails. *)
Theorem tenant_resolution_order (request : Request) :
  (forall h, tenant_header request = Some h -> h <> "" ->
     getShopFromRequest request = Some h) /\
  (Js.truthy (tenant_header request) = false ->
   forall q, shop_param request = Some q -> q <> "" ->
     getShopFromRequest request = Some q) /\
  (Js.truthy (tenant_header request) = false ->
   Js.truthy (shop_param request) = false ->
   forall h, host_candidate request = Some h ->
     (ends_with_myshopify h -> getShopFromRequest request = Some h) /\
     (~ ends_with_myshopify h -> getShopFromRequest request = None)).
Proof.
  split; [|split].
  - intros h. apply getShop_header.
  - intros Hh q. now apply getShop_param.
  - intros Hh Hq h Hc. split.
    + now apply getShop_host.
    + intros Hn. apply getShop_no_match; try assumption.
      intros h' Hc'. rewrite Hc in Hc'. now injection Hc' as <-.
Qed.

(** C8, instance: a request with an empty tenant header falls through to
    the [shop] parameter; one whose forwarded host is foreign fails even
    though its host header would match. *)
Lemma tenant_resolution_order_witness :
  getShopFromRequest
    (mkRequest "GET" [("X-Shopify-Shop-Domain", "")]
       (mkURL "app.example.com" [("shop", "a.myshopify.com")]) no_body no_form)
  = Some "a.myshopify.com" /\
  getShopFromRequest
    (mkRequest "GET" [("X-Forwarded-Host", "evil.example"); ("Host", "a.myshopify.com")]
       (mkURL "a.myshopify.com" []) no_body no_form)
  = None.
Proof.
  split.
  - refine (proj1 (proj2 (tenant_resolution_order _)) _ "a.myshopify.com" _ _).
    + reflexivity.
    + reflexivity.
    + discriminate.
  - refine (proj2 (proj2 (proj2 (tenant_resolution_order _)) _ _ "evil.example" _) _).
    + reflexivity.
    + reflexivity.
    + reflexivity.
    + intros Hm. apply test_myshopify_spec in Hm. discriminate.
Defined.

(** C8, counterexample: with the three specified sources all absent the
    resolution does not fail when the request URL itself is on a shop
    domain. *)
Lemma tenant_resolution_counterexample :
  resolution_as_specified (bare_request "GET") = None /\
  getShopFromRequest (bare_request "GET") = Some "shop1.myshopify.com".
Proof. split; reflexivity. Qed.

(** ** Status codes of the handlers *)

Ltac ends_inv H :=
  inversion H; subst; clear H.

(* Follow a handler to its end, splitting on what the store answers. *)
Ltac ends_step :=
  match goal with
  | H : ends_with (ret _) _ |- _ => unfold ret in H
  | H : ends_with (Done _) _ |- _ => ends_inv H
  | H : ends_with (Create _ _) _ |- _ => ends_inv H
  | H : ends_with (FindMany _ _) _ |- _ => ends_inv H
  | H : ends_with (_ (Normal _)) _ |- _ =>
      progress cbn [try_catch pbind ret lift] in H
  | H : ends_with (_ (Throw _)) _ |- _ =>
      progress cbn [try_catch pbind ret lift] in H
  | H : ends_with (_ ?r) _ |- _ => is_var r; destruct r
  | H : ends_with ?m _ |- _ =>
      match m with
      | context [match ?r with Normal _ => _ | Throw _ => _ end] =>
          is_var r; destruct r; cbn [try_catch pbind ret lift] in H
      end
  end.

Lemma status_safeJson (d : data) (s : Z) : Response.status (safeJson d s) = s.
Proof. reflexivity. Qed.

Ltac status_in := rewrite status_safeJson; cbn [In]; auto 6.

(* Closed goals on concrete requests are settled by evaluation. *)
Ltac evaluate := vm_compute; reflexivity.

Ltac submission_example := split; [|split; [|split]]; evaluate.

Lemma loader_unresolved (request : Request) :
  getShopFromRequest request = None ->
  loader request = ret (safeJson (failure missing_shop_get) 401).
Proof. unfold loader. now intros ->. Qed.

Lemma action_unresolved (request : Request) :
  method request = "POST" ->
  getShopFromRequest request = None ->
  action request = ret (safeJson (failure missing_shop_post) 401).
Proof. unfold action. now intros -> ->. Qed.

Lemma action_not_post (request : Request) :
  method request <> "POST" ->
  action request = ret (safeJson (failure "Method not allowed") 405).
Proof.
  unfold action. intros H.
  destruct (String.eqb_spec (method request) "POST"); [contradiction | reflexivity].
Qed.

(** With a resolved tenant the list handler answers 200, 400 or 500. *)
Lemma loader_resolved_status (request : Request) (shop : string) (resp : Response.t) :
  getShopFromRequest request = Some shop ->
  ends_with (loader request) (Normal resp) ->
  In (Response.status resp) [200; 400; 500].
Proof.
  intros Hs. unfold loader. rewrite Hs, (getShop_truthy _ _ Hs). cbn [negb].
  destruct (String.eqb _ ""); cbn [try_catch ret].
  - intros H. ends_inv H. status_in.
  - destruct (BigInt_of_string _) as [pid|e]; cbn [try_catch ret pbind review_findMany].
    + intros H. repeat ends_step; status_in.
    + intros H. ends_inv H. status_in.
Qed.

(** With a resolved tenant the submit handler answers 200, 400, 405 or 500. *)
Lemma action_resolved_status (request : Request) (shop : string) (resp : Response.t) :
  getShopFromRequest request = Some shop ->
  ends_with (action request) (Normal resp) ->
  In (Response.status resp) [200; 400; 405; 500].
Proof.
  intros Hs. unfold action.
  destruct (String.eqb (method request) "POST"); cbn [negb].
  2:{ intros H. ends_inv H. status_in. }
  rewrite Hs, (getShop_truthy _ _ Hs). cbn [negb].
  destruct (readBody request) as [body|e]; cbn [lift pbind try_catch ret].
  2:{ intros H. ends_inv H. status_in. }
  destruct (normalize body) as [i|e]; cbn [lift pbind try_catch ret].
  2:{ intros H. ends_inv H. status_in. }
  destruct (Js.ToBoolean (productIdRaw i)); cbn [negb try_catch ret].
  2:{ intros H. ends_inv H. status_in. }
  destruct (Js.ToBigInt (productIdRaw i)) as [pid|e]; cbn [try_catch ret].
  2:{ intros H. ends_inv H. status_in. }
  destruct (Js.ToNumber (ratingRaw i)) as [rating|e]; cbn [lift pbind try_catch ret].
  2:{ intros H. ends_inv H. status_in. }
  destruct (rating_out_of_range rating); cbn [try_catch ret].
  { intros H. ends_inv H. status_in. }
  destruct (_ || _); cbn [try_catch ret pbind review_create].
  { intros H. ends_inv H. status_in. }
  intros H. repeat ends_step; status_in.
Qed.

(** C10: when the tenant header, the [shop] parameter and the
    forwarded-host and host headers are all absent (or empty) and the host
    of the request URL ends with [.myshopify.com] without regard to case,
    the resolver returns that host, and neither handler answers 401. *)
Theorem url_host_fallback (request : Request) :
  Js.truthy (tenant_header request) = false ->
  Js.truthy (shop_param request) = false ->
  Js.truthy (forwarded_host request) = false ->
  Js.truthy (host_header request) = false ->
  ends_with_myshopify (host (url request)) ->
  getShopFromRequest request = Some (host (url request)) /\
  (forall resp, ends_with (loader request) (Normal resp) ->
     Response.status resp <> 401) /\
  (forall resp, ends_with (action request) (Normal resp) ->
     Response.status resp <> 401).
Proof.
  intros Hh Hq Hf Ho Hm.
  assert (Hs : getShopFromRequest request = Some (host (url request))).
  { apply getShop_host; try assumption.
    unfold host_candidate, Js.or_else. now rewrite Hf, Ho. }
  split; [exact Hs|]. split; intros resp H.
  - pose proof (loader_resolved_status _ _ _ Hs H) as Hin. simpl in Hin.
    intros E. rewrite E in Hin. intuition discriminate.
  - pose proof (action_resolved_status _ _ _ Hs H) as Hin. simpl in Hin.
    intros E. rewrite E in Hin. intuition discriminate.
Qed.

(** C10, instance: a request with no headers and no parameters sent to
    [shop1.myshopify.com]. *)
Lemma url_host_fallback_witness :
  getShopFromRequest (bare_request "GET") = Some "shop1.myshopify.com".
Proof.
  refine (proj1 (url_host_fallback (bare_request "GET") _ _ _ _ _));
    try reflexivity.
  now exists "shop1".
Defined.

(** C4: when no source yields a tenant (the tenant header and the [shop]
    parameter are absent or empty and the host candidate does not end with
    [.myshopify.com]) the resolver returns nothing, the list handler and
    the submit handler (a POST) answer 401, and both end without a store
    call; a request to the submit handler with another method makes no
    store call either. *)
Theorem unresolved_tenant_401 (request : Request) :
  Js.truthy (tenant_header request) = false ->
  Js.truthy (shop_param request) = false ->
  (forall h, host_candidate request = Some h -> ~ ends_with_myshopify h) ->
  getShopFromRequest request = None /\
  loader request = ret (safeJson (failure missing_shop_get) 401) /\
  (method request = "POST" ->
   action request = ret (safeJson (failure missing_shop_post) 401)) /\
  Response.status (safeJson (failure missing_shop_get) 401) = 401 /\
  Response.status (safeJson (failure missing_shop_post) 401) = 401 /\
  no_store_call (loader request) /\
  no_store_call (action request).
Proof.
  intros Hh Hq Hc.
  assert (Hs : getShopFromRequest request = None) by now apply getShop_no_match.
  split; [exact Hs|].
  split; [now apply loader_unresolved|].
  split; [intros Hm; now apply action_unresolved|].
  split; [reflexivity|]. split; [reflexivity|]. split.
  - now rewrite loader_unresolved.
  - destruct (String.eqb_spec (method request) "POST") as [Hm|Hm].
    + now rewrite action_unresolved.
    + now rewrite action_not_post.
Qed.

(** C4, instance: a POST to a foreign host with no tenant header and no
    [shop] parameter. *)
Lemma unresolved_tenant_401_witness :
  action (mkRequest "POST" [("Host", "app.example.com")]
            (mkURL "app.example.com" []) no_body no_form)
  = ret (safeJson (failure missing_shop_post) 401).
Proof.
  refine (proj1 (proj2 (proj2
    (unresolved_tenant_401
       (mkRequest "POST" [("Host", "app.example.com")]
          (mkURL "app.example.com" []) no_body no_form) _ _ _))) _);
    try reflexivity.
  intros h E Hm. injection E as <-.
  apply test_myshopify_spec in Hm. discriminate.
Defined.

(** ** The submit handler, stage by stage *)

Section Submit.

Variables (request : Request) (shop : string) (body : value) (i : Inputs).
Hypothesis Hsub : submission request shop body i.

Lemma action_submission :
  action request =
  try_catch
    (if negb (Js.ToBoolean (productIdRaw i)) then bad_request "product_id is required"
     else
       match Js.ToBigInt (productIdRaw i) with
       | Throw _ => bad_request "Invalid product_id"
       | Normal pid =>
           rating <- lift (Js.ToNumber (ratingRaw i)) ;;
           if rating_out_of_range rating then
             bad_request "rating must be between 1 and 5"
           else if String.eqb (authorName i) "" || String.eqb (text i) "" then
             bad_request "author_name and body are required"
           else
             created <- review_create (create_data shop pid rating i) ;;
             ret (safeJson (created_payload created) 200)
       end)
    (fun _ => ret (safeJson (failure "Failed to submit review") 500)).
Proof.
  destruct Hsub as (Hm & Hs & Hb & Hn).
  unfold action. rewrite Hm, Hs, (getShop_truthy _ _ Hs), Hb.
  cbn [String.eqb Ascii.eqb Bool.eqb negb lift pbind]. rewrite Hn. reflexivity.
Qed.

(** Rule 1a: a missing (falsy) identifier *)
Lemma action_missing_id :
  Js.ToBoolean (productIdRaw i) = false ->
  action request = bad_request "product_id is required".
Proof. rewrite action_submission. now intros ->. Qed.

(** Rule 1b: an identifier that [BigInt] does not parse *)
Lemma action_invalid_id (e : JsError) :
  Js.ToBoolean (productIdRaw i) = true ->
  Js.ToBigInt (productIdRaw i) = Throw e ->
  action request = bad_request "Invalid product_id".
Proof. rewrite action_submission. now intros -> ->. Qed.

(** Rule 2: a rating outside the range *)
Lemma action_bad_rating (pid : Z) (rating : Num.number) :
  Js.ToBoolean (productIdRaw i) = true ->
  Js.ToBigInt (productIdRaw i) = Normal pid ->
  Js.ToNumber (ratingRaw i) = Normal rating ->
  rating_out_of_range rating = true ->
  action request = bad_request "rating must be between 1 and 5".
Proof.
  rewrite action_submission. intros -> -> -> Hr.
  cbn [negb lift pbind]. now rewrite Hr.
Qed.

(** All rules passed: the store is asked to create the row, and the
    handler answers with what the store returns. *)
Lemma action_accepts (pid : Z) (rating : Num.number) :
  Js.ToBoolean (productIdRaw i) = true ->
  Js.ToBigInt (productIdRaw i) = Normal pid ->
  Js.ToNumber (ratingRaw i) = Normal rating ->
  rating_out_of_range rating = false ->
  authorName i <> "" ->
  text i <> "" ->
  exists k,
    action request = Create (create_data shop pid rating i) k /\
    (forall created,
       k (Normal created) = ret (safeJson (created_payload created) 200)) /\
    (forall e,
       k (Throw e) = ret (safeJson (failure "Failed to submit review") 500)).
Proof.
  rewrite action_submission. intros -> -> -> Hr Ha Ht.
  apply String.eqb_neq in Ha, Ht.
  cbn [negb lift pbind]. rewrite Hr, Ha, Ht.
  cbn [orb pbind review_create try_catch].
  eexists. split; [reflexivity|]. split; reflexivity.
Qed.

(** Conversely, a store call by the submit handler is a create whose data
    passed every rule. *)
Lemma action_create_inv (d : CreateData.t) (k : Completion Review.t -> Prog Response.t) :
  action request = Create d k ->
  exists pid rating,
    Js.ToBoolean (productIdRaw i) = true /\
    Js.ToBigInt (productIdRaw i) = Normal pid /\
    Js.ToNumber (ratingRaw i) = Normal rating /\
    rating_out_of_range rating = false /\
    authorName i <> "" /\ text i <> "" /\
    d = create_data shop pid rating i /\
    (forall created,
       k (Normal created) = ret (safeJson (created_payload created) 200)) /\
    (forall e,
       k (Throw e) = ret (safeJson (failure "Failed to submit review") 500)).
Proof.
  rewrite action_submission.
  destruct (Js.ToBoolean (productIdRaw i)); cbn [negb]; [|discriminate].
  destruct (Js.ToBigInt (productIdRaw i)) as [pid|e]; [|discriminate].
  destruct (Js.ToNumber (ratingRaw i)) as [rating|e]; cbn [lift pbind]; [|discriminate].
  destruct (rating_out_of_range rating) eqn:Hr; [discriminate|].
  destruct (String.eqb_spec (authorName i) "") as [|Ha]; [discriminate|].
  destruct (String.eqb_spec (text i) "") as [|Ht]; [discriminate|].
  cbn [orb pbind review_create try_catch]. intros E. injection E as <- <-.
  exists pid, rating. repeat split; auto.
Qed.

End Submit.

(** ** Shape of the submit handler *)

Lemma readBody_unfold (request : Request) :
  readBody request =
  if declares_json request then json request
  else if declares_form request then
    cbind (formData request) (fun form =>
      Normal (VObj (fold_left (fun obj kv => Js.set obj (fst kv) (snd kv)) form [])))
  else
    match json request with
    | Normal v => Normal v
    | Throw _ => Normal (VObj [])
    end.
Proof. reflexivity. Qed.

Lemma cbind_inv {A B : Type} (c : Completion A) (f : A -> Completion B) (b : B) :
  cbind c f = Normal b -> exists a, c = Normal a /\ f a = Normal b.
Proof.
  destruct c as [a|e]; [|discriminate]. intros H. now exists a.
Qed.

(** What [normalize] reads: the identifier under [productId], else under
    [product_id], and the rating under [rating]. *)
Lemma normalize_inv (body : value) (i : Inputs) :
  normalize body = Normal i ->
  exists primary,
    Js.get body "productId" = Normal primary /\
    (if Js.nullish primary then Js.get body "product_id" else Normal primary)
    = Normal (productIdRaw i) /\
    Js.get body "rating" = Normal (ratingRaw i).
Proof.
  unfold normalize. intros H.
  apply cbind_inv in H as (primary & Hp & H). cbv beta in H.
  apply cbind_inv in H as (raw & Hraw & H). cbv beta in H.
  apply cbind_inv in H as (rt & Hrt & H). cbv beta in H.
  do 5 (apply cbind_inv in H as (? & _ & H); cbv beta in H).
  injection H as <-. exists primary. now cbn.
Qed.

(** The submit handler either answers an error at once, or it is a
    submission that reaches the store with a create. *)
Lemma action_shape (request : Request) :
  (exists resp, action request = ret resp /\
                In (Response.status resp) [400; 401; 405; 500]) \/
  (exists shop body i d k,
     submission request shop body i /\ action request = Create d k).
Proof.
  destruct (String.eqb_spec (method request) "POST") as [Hm|Hm].
  2:{ left. eexists. split; [now apply action_not_post | status_in]. }
  destruct (getShopFromRequest request) as [shop|] eqn:Hs.
  2:{ left. eexists. split; [now apply action_unresolved | status_in]. }
  destruct (readBody request) as [body|e] eqn:Hb.
  2:{ left. eexists. unfold action.
      rewrite Hm, Hs, (getShop_truthy _ _ Hs), Hb. split; [reflexivity | status_in]. }
  destruct (normalize body) as [i|e] eqn:Hn.
  2:{ left. eexists. unfold action.
      rewrite Hm, Hs, (getShop_truthy _ _ Hs), Hb.
      cbn [String.eqb Ascii.eqb Bool.eqb negb lift pbind]. rewrite Hn.
      split; [reflexivity | status_in]. }
  assert (Hsub : submission request shop body i) by (repeat split; assumption).
  rewrite (action_submission _ _ _ _ Hsub).
  destruct (Js.ToBoolean (productIdRaw i)); cbn [negb].
  2:{ left. eexists. split; [reflexivity | status_in]. }
  destruct (Js.ToBigInt (productIdRaw i)) as [pid|e].
  2:{ left. eexists. split; [reflexivity | status_in]. }
  destruct (Js.ToNumber (ratingRaw i)) as [rating|e]; cbn [lift pbind].
  2:{ left. eexists. split; [reflexivity | status_in]. }
  destruct (rating_out_of_range rating).
  { left. eexists. split; [reflexivity | status_in]. }
  destruct (_ || _).
  { left. eexists. split; [reflexivity | status_in]. }
  right. exists shop, body, i. eexists. eexists. split; [exact Hsub|].
  reflexivity.
Qed.

(** ** Submission: status of a created review *)

Lemma run_create_accepted {A : Type} (f : Store.Fresh) (d : CreateData.t)
    (k : Completion Review.t -> Prog A) (db : Store.Db) :
  Store.fits_int32 (CreateData.rating d) && Store.fits_int64 (CreateData.productId d)
  = true ->
  Store.run f (Create d k) db = Store.run f (k (Normal (Store.row f d))) (db ++ [Store.row f d]).
Proof. intros H. cbn [Store.run]. unfold Store.create. now rewrite H. Qed.

Lemma run_create_refused {A : Type} (f : Store.Fresh) (d : CreateData.t)
    (k : Completion Review.t -> Prog A) (db : Store.Db) :
  Store.fits_int32 (CreateData.rating d) && Store.fits_int64 (CreateData.productId d)
  = false ->
  Store.run f (Create d k) db = Store.run f (k (Throw StoreError)) db.
Proof. intros H. cbn [Store.run]. unfold Store.create. now rewrite H. Qed.

Lemma serialize_status (r : Review.t) :
  member "status" (JSON.serialize (Review_data r))
  = Some (JStr (ReviewStatus_name (Review.status r))).
Proof. reflexivity. Qed.

(** The store calls of the list handler: none, or one [findMany]. *)
Lemma loader_calls (request : Request) (calls : list StoreCall) :
  store_calls (loader request) calls ->
  calls = [] \/
  exists q k, loader request = FindMany q k /\ calls = [FindManyCall q].
Proof.
  unfold loader.
  destruct (negb (Js.truthy (getShopFromRequest request))); cbn [try_catch ret].
  { intros H. inversion H. now left. }
  destruct (String.eqb _ ""); cbn [try_catch ret].
  { intros H. inversion H. now left. }
  destruct (BigInt_of_string _) as [pid|e]; cbn [try_catch ret pbind review_findMany].
  2:{ intros H. inversion H. now left. }
  intros H. inversion H as [| |q k r l Hk]; subst. right.
  eexists. eexists. split; [reflexivity|]. f_equal.
  destruct r; cbn [try_catch pbind ret] in Hk; now inversion Hk.
Qed.

(** The store calls of the submit handler: none, or one create whose data
    passed every rule. *)
Lemma action_calls (request : Request) (calls : list StoreCall) :
  store_calls (action request) calls ->
  calls = [] \/
  exists shop body i pid rating,
    submission request shop body i /\
    Js.ToBigInt (productIdRaw i) = Normal pid /\
    Js.ToNumber (ratingRaw i) = Normal rating /\
    authorName i <> "" /\ text i <> "" /\
    calls = [CreateCall (create_data shop pid rating i)].
Proof.
  intros H.
  destruct (action_shape request) as [(resp & E & _) | (shop & body & i & d & k & Hsub & E)].
  { rewrite E in H. inversion H. now left. }
  destruct (action_create_inv _ _ _ _ Hsub _ _ E)
    as (pid & rating & _ & Hpid & Hn & _ & Ha & Ht & Hd & Hok & Herr).
  right. exists shop, body, i, pid, rating.
  split; [exact Hsub|]. split; [exact Hpid|]. split; [exact Hn|].
  split; [exact Ha|]. split; [exact Ht|].
  rewrite E in H. inversion H as [|d0 k0 r l Hk|]; subst. f_equal.
  destruct r as [created|e]; [rewrite Hok in Hk | rewrite Herr in Hk]; now inversion Hk.
Qed.

(** What a run of the submit handler leaves on the store: the table as it
    was, or one more row, made from the data of the create. *)
Lemma run_action_rows (request : Request) (f : Store.Fresh) (db db' : Store.Db)
    (c : Completion Response.t) :
  Store.run f (action request) db = (c, db') ->
  db' = db \/
  exists d k, action request = Create d k /\ db' = db ++ [Store.row f d].
Proof.
  destruct (action_shape request) as [(resp & E & _) | (shop & body & i & d & k & Hsub & E)].
  { rewrite E. cbn [Store.run ret]. intros H. injection H as _ <-. now left. }
  destruct (action_create_inv _ _ _ _ Hsub _ _ E)
    as (pid & rating & _ & _ & _ & _ & _ & _ & _ & Hok & Herr).
  intros Hrun. rewrite E in Hrun.
  destruct (Store.fits_int32 (CreateData.rating d)
            && Store.fits_int64 (CreateData.productId d)) eqn:Hfit.
  - rewrite (run_create_accepted _ _ _ _ Hfit), Hok in Hrun.
    cbn [Store.run ret] in Hrun. injection Hrun as _ <-.
    right. now exists d, k.
  - rewrite (run_create_refused _ _ _ _ Hfit), Herr in Hrun.
    cbn [Store.run server_error ret] in Hrun. injection Hrun as _ <-. now left.
Qed.

(** C1: every create the submit handler issues carries the status
    [pending], whatever the request holds, and the handler makes no other
    store call; on the store, a submission answered with 200 has added
    exactly one row, that row is [pending], and it is the review returned
    in the response, written with the status "pending".  No review is
    created in another status: in a complete run of the submit handler,
    whatever the store answers, every store call is a create with the
    status [pending], and every row the run adds to the table is
    [pending], whatever the answer of the handler; and the list handler
    issues no create at all. *)
Theorem created_status_pending (request : Request) :
  (forall d k, action request = Create d k -> CreateData.status d = pending) /\
  (forall q k, action request <> FindMany q k) /\
  (forall f db resp db',
     Store.run f (action request) db = (Normal resp, db') ->
     Response.status resp = 200 ->
     exists r,
       db' = db ++ [r] /\
       Review.status r = pending /\
       resp = safeJson (created_payload r) 200 /\
       member "status" (JSON.serialize (Review_data r)) = Some (JStr "pending")) /\
  (forall calls,
     store_calls (action request) calls ->
     Forall (fun c => exists d, c = CreateCall d /\ CreateData.status d = pending)
       calls) /\
  (forall f db c db',
     Store.run f (action request) db = (c, db') ->
     exists added,
       db' = db ++ added /\ Forall (fun r => Review.status r = pending) added) /\
  (forall calls,
     store_calls (loader request) calls ->
     Forall (fun c => exists q, c = FindManyCall q) calls).
Proof.
  assert (H : (forall d k, action request = Create d k ->
                           CreateData.status d = pending) /\
              (forall q k, action request <> FindMany q k) /\
              (forall f db resp db',
                 Store.run f (action request) db = (Normal resp, db') ->
                 Response.status resp = 200 ->
                 exists r,
                   db' = db ++ [r] /\
                   Review.status r = pending /\
                   resp = safeJson (created_payload r) 200 /\
                   member "status" (JSON.serialize (Review_data r))
                   = Some (JStr "pending"))).
  { destruct (action_shape request)
      as [(resp0 & E & Hst) | (shop & body & i & d & k & Hsub & E)].
    - rewrite E. split; [discriminate|]. split; [discriminate|].
      intros f db resp db' Hrun H200. cbn in Hrun. injection Hrun as <- <-.
      rewrite H200 in Hst. cbn in Hst. intuition discriminate.
    - destruct (action_create_inv _ _ _ _ Hsub _ _ E)
        as (pid & rating & _ & _ & _ & _ & _ & _ & Hd & Hok & Herr).
      rewrite E. split; [|split; [discriminate|]].
      + intros d' k' E'. injection E' as <- _. now rewrite Hd.
      + intros f db resp db' Hrun H200.
        destruct (Store.fits_int32 (CreateData.rating d)
                  && Store.fits_int64 (CreateData.productId d)) eqn:Hfit.
        * rewrite (run_create_accepted _ _ _ _ Hfit), Hok in Hrun.
          cbn in Hrun. injection Hrun as <- <-.
          exists (Store.row f d). split; [reflexivity|].
          assert (Hp : Review.status (Store.row f d) = pending) by now rewrite Hd.
          repeat split; [exact Hp|]. now rewrite serialize_status, Hp.
        * rewrite (run_create_refused _ _ _ _ Hfit), Herr in Hrun.
          cbn in Hrun. injection Hrun as <- <-. discriminate. }
  destruct H as (Hfirst & Hquery & Hrun200).
  split; [exact Hfirst|]. split; [exact Hquery|]. split; [exact Hrun200|].
  split; [|split].
  - intros calls H.
    destruct (action_calls _ _ H)
      as [-> | (shop & body & i & pid & rating & _ & _ & _ & _ & _ & ->)].
    + constructor.
    + constructor; [|constructor]. eexists. split; reflexivity.
  - intros f db c db' Hrun.
    destruct (run_action_rows _ _ _ _ _ Hrun) as [-> | (d & k & E & ->)].
    + exists []. split; [now rewrite app_nil_r | constructor].
    + exists [Store.row f d]. split; [reflexivity|].
      constructor; [exact (Hfirst d k E) | constructor].
  - intros calls H.
    destruct (loader_calls _ _ H) as [-> | (q & k & _ & ->)]; constructor.
    + now exists q.
    + constructor.
Qed.

(** C1, instance: a complete submission that also carries
    [status: "approved"] is stored and returned as [pending]. *)
Lemma created_status_pending_witness :
  exists r,
    [example_row 42 5] = [] ++ [r] /\ Review.status r = pending.
Proof.
  destruct
    (proj1 (proj2 (proj2
       (created_status_pending
          (json_post
             (Normal (VObj [ ("product_id", VStr "42"); ("rating", num 5);
                             ("body", VStr "Great"); ("author_name", VStr "Ana");
                             ("status", VStr "approved") ]))))))
       fresh1 [] (safeJson (created_payload (example_row 42 5)) 200)
       [example_row 42 5])
    as (r & Hdb & Hst & _).
  - vm_compute. reflexivity.
  - reflexivity.
  - exists r. split; assumption.
Defined.

(** ** Submission: the rating *)

Lemma rejected_ratings (v : value) :
  In v [num 0; num 6; VStr "abc"; VNum Num.NaN; VUndefined] ->
  exists rating,
    Js.ToNumber v = Normal rating /\ rating_out_of_range rating = true.
Proof.
  intros H. repeat (destruct H as [<-|H]; [eexists; split; [reflexivity|]; vm_compute; reflexivity|]).
  destruct H.
Qed.

(** C2 (as amended): a submission reaches the store only with a rating
    that [Number] converts to a finite number between 1 and 5 (whether it
    is a whole number is not checked); the ratings 0, 6, "abc", NaN and an
    absent rating are each answered with 400 without a store call. *)
Theorem rating_gate (request : Request) (shop : string) (body : value) (i : Inputs) :
  submission request shop body i ->
  (forall d k,
     action request = Create d k ->
     Js.ToNumber (ratingRaw i) = Normal (CreateData.rating d) /\
     Num.isFinite (CreateData.rating d) = true /\
     Num.lt (CreateData.rating d) (Num.of_Z 1) = false /\
     Num.gt (CreateData.rating d) (Num.of_Z 5) = false) /\
  (forall v,
     Js.get body "rating" = Normal v ->
     In v [num 0; num 6; VStr "abc"; VNum Num.NaN; VUndefined] ->
     (exists error, action request = bad_request error) /\
     no_store_call (action request)).
Proof.
  intros Hsub. split.
  - intros d k E.
    destruct (action_create_inv _ _ _ _ Hsub _ _ E)
      as (pid & rating & _ & _ & Hn & Hr & _ & _ & Hd & _).
    subst d. cbn [create_data CreateData.rating]. split; [exact Hn|].
    unfold rating_out_of_range in Hr.
    apply orb_false_elim in Hr as [Hr Hgt].
    apply orb_false_elim in Hr as [Hfin Hlt].
    apply negb_false_iff in Hfin. auto.
  - intros v Hv Hin.
    destruct Hsub as (Hm & Hs & Hb & Hnorm).
    destruct (normalize_inv _ _ Hnorm) as (primary & _ & _ & Hrt).
    rewrite Hv in Hrt. injection Hrt as Hrt.
    destruct (rejected_ratings v Hin) as (rating & Hn & Hr). rewrite Hrt in Hn.
    assert (Hsub : submission request shop body i) by (repeat split; assumption).
    assert (E : exists error, action request = bad_request error).
    { destruct (Js.ToBoolean (productIdRaw i)) eqn:Hp.
      - destruct (Js.ToBigInt (productIdRaw i)) as [pid|e] eqn:Hpid.
        + eexists. exact (action_bad_rating _ _ _ _ Hsub pid rating Hp Hpid Hn Hr).
        + eexists. exact (action_invalid_id _ _ _ _ Hsub e Hp Hpid).
      - eexists. exact (action_missing_id _ _ _ _ Hsub Hp). }
    split; [exact E|]. destruct E as (error & E). now rewrite E.
Qed.

(** C2, instance: a submission with rating 6 is answered with 400. *)
Lemma rating_gate_witness :
  exists error,
    action (json_post (Normal (review_body (VStr "42") (num 6)))) = bad_request error.
Proof.
  refine (proj1 (proj2 (rating_gate (json_post (Normal (review_body (VStr "42") (num 6))))
                   "a.myshopify.com" (review_body (VStr "42") (num 6))
                   (mkInputs (VStr "42") (num 6) None "Great" "Ana" None None) _)
            (num 6) _ _)).
  - submission_example.
  - reflexivity.
  - simpl. auto.
Defined.

(** C2, counterexample: the rating 2.5 is not an integer, passes the
    validation and is handed to the store. *)
Lemma rating_integer_counterexample :
  exists d k,
    action (json_post (Normal (review_body (VStr "42") (VNum two_and_a_half))))
    = Create d k /\
    CreateData.rating d = two_and_a_half /\
    Num.toString two_and_a_half = "2.5" /\
    Num.isInteger (CreateData.rating d) = false.
Proof.
  destruct
    (action_accepts
       (json_post (Normal (review_body (VStr "42") (VNum two_and_a_half))))
       "a.myshopify.com" (review_body (VStr "42") (VNum two_and_a_half))
       (mkInputs (VStr "42") (VNum two_and_a_half) None "Great" "Ana" None None)
       ltac:(submission_example) 42 two_and_a_half
       ltac:(evaluate) ltac:(evaluate) ltac:(evaluate) ltac:(evaluate)
       ltac:(discriminate) ltac:(discriminate))
    as (k & E & _).
  eexists. exists k. split; [exact E|].
  split; [|split]; evaluate.
Qed.

(** ** Submission: the product identifier *)

(** C6 (as amended): the identifier is read under [productId] and, when
    that is [null] or [undefined], under [product_id]; a falsy one is
    answered with 400 "product_id is required", one whose text [BigInt]
    does not parse with 400 "Invalid product_id", two different messages;
    a submission reaches the store only with an identifier that is truthy
    and whose text [BigInt] parses, the integer so obtained being passed on
    without a bound on its size. *)
Theorem product_id_rules (request : Request) (shop : string) (body : value) (i : Inputs) :
  submission request shop body i ->
  (exists primary,
     Js.get body "productId" = Normal primary /\
     (if Js.nullish primary then Js.get body "product_id" else Normal primary)
     = Normal (productIdRaw i)) /\
  (Js.ToBoolean (productIdRaw i) = false ->
   action request = bad_request "product_id is required") /\
  (Js.ToBoolean (productIdRaw i) = true ->
   forall e, Js.ToBigInt (productIdRaw i) = Throw e ->
   action request = bad_request "Invalid product_id") /\
  (forall d k,
     action request = Create d k ->
     Js.ToBoolean (productIdRaw i) = true /\
     Js.ToBigInt (productIdRaw i) = Normal (CreateData.productId d)) /\
  "product_id is required" <> "Invalid product_id".
Proof.
  intros Hsub. split; [|split; [|split; [|split]]].
  - destruct Hsub as (_ & _ & _ & Hn).
    destruct (normalize_inv _ _ Hn) as (primary & Hp & Hraw & _).
    now exists primary.
  - exact (action_missing_id _ _ _ _ Hsub).
  - intros Hp e He. exact (action_invalid_id _ _ _ _ Hsub e Hp He).
  - intros d k E.
    destruct (action_create_inv _ _ _ _ Hsub _ _ E)
      as (pid & rating & Hp & Hpid & _ & _ & _ & _ & Hd & _).
    subst d. now split.
  - discriminate.
Qed.

(** C6, instance: a body without an identifier, and one with the
    identifier "abc". *)
Lemma product_id_rules_witness :
  action (json_post (Normal (VObj [("rating", num 5)])))
  = bad_request "product_id is required" /\
  action (json_post (Normal (review_body (VStr "abc") (num 5))))
  = bad_request "Invalid product_id".
Proof.
  split.
  - refine (proj1 (proj2
      (product_id_rules (json_post (Normal (VObj [("rating", num 5)])))
         "a.myshopify.com" (VObj [("rating", num 5)])
         (mkInputs VUndefined (num 5) None "" "" None None) _)) _).
    + submission_example.
    + reflexivity.
  - refine (proj1 (proj2 (proj2
      (product_id_rules (json_post (Normal (review_body (VStr "abc") (num 5))))
         "a.myshopify.com" (review_body (VStr "abc") (num 5))
         (mkInputs (VStr "abc") (num 5) None "Great" "Ana" None None) _))) _
      SyntaxError _).
    + submission_example.
    + reflexivity.
    + reflexivity.
Defined.

(** C6, counterexample: the identifier 9223372036854775808, that is 2^63,
    does not fit a 64-bit integer, passes the validation and is handed to
    the store. *)
Lemma product_id_64bit_counterexample :
  exists d k,
    action (json_post (Normal (review_body (VStr "9223372036854775808") (num 5))))
    = Create d k /\
    CreateData.productId d = 2 ^ 63 /\
    Store.fits_int64 (CreateData.productId d) = false.
Proof.
  destruct
    (action_accepts
       (json_post (Normal (review_body (VStr "9223372036854775808") (num 5))))
       "a.myshopify.com" (review_body (VStr "9223372036854775808") (num 5))
       (mkInputs (VStr "9223372036854775808") (num 5) None "Great" "Ana" None None)
       ltac:(submission_example) (2 ^ 63) (Num.of_Z 5)
       ltac:(evaluate) ltac:(evaluate) ltac:(evaluate) ltac:(evaluate)
       ltac:(discriminate) ltac:(discriminate))
    as (k & E & _).
  eexists. exists k. split; [exact E|]. split; evaluate.
Qed.

(** On the store the two submissions above end in 500: the columns
    [rating] and [productId] do not take the values. *)
Lemma fraction_and_overflow_refused :
  Store.run fresh1
    (action (json_post (Normal (review_body (VStr "42") (VNum two_and_a_half))))) []
  = (Normal (safeJson (failure "Failed to submit review") 500), []) /\
  Store.run fresh1
    (action (json_post (Normal (review_body (VStr "9223372036854775808") (num 5))))) []
  = (Normal (safeJson (failure "Failed to submit review") 500), []).
Proof. split; evaluate. Qed.

(** C9 (as amended): an identifier that is the empty string or the number
    0 is treated as not provided and answered with 400 "product_id is
    required" without a store call; the string "0" is truthy, parses to
    the identifier 0 and is not answered that way. *)
Theorem falsy_product_id (request : Request) (shop : string) (body : value) (i : Inputs) :
  submission request shop body i ->
  (In (productIdRaw i) [VStr ""; num 0] ->
   action request = bad_request "product_id is required" /\
   no_store_call (action request)) /\
  (productIdRaw i = VStr "0" ->
   Js.ToBigInt (productIdRaw i) = Normal 0 /\
   action request <> bad_request "product_id is required").
Proof.
  intros Hsub. split.
  - intros Hin.
    assert (E : action request = bad_request "product_id is required").
    { apply (action_missing_id _ _ _ _ Hsub).
      destruct Hin as [<-|[<-|[]]]; reflexivity. }
    split; [exact E|]. now rewrite E.
  - intros Hraw. split; [now rewrite Hraw|].
    rewrite (action_submission _ _ _ _ Hsub), Hraw.
    change (Js.ToBoolean (VStr "0")) with true.
    change (Js.ToBigInt (VStr "0")) with (@Normal Z 0).
    cbn [negb].
    destruct (Js.ToNumber (ratingRaw i)) as [rating|e]; cbn [lift pbind try_catch ret].
    2:{ intros E. apply (f_equal answer_body) in E. vm_compute in E. discriminate. }
    destruct (rating_out_of_range rating).
    { cbn [try_catch bad_request ret]. intros E.
      apply (f_equal answer_body) in E. vm_compute in E. discriminate. }
    destruct (_ || _).
    { cbn [try_catch bad_request ret]. intros E.
      apply (f_equal answer_body) in E. vm_compute in E. discriminate. }
    cbn [pbind review_create try_catch]. discriminate.
Qed.

(** C9, instance: a submission whose identifier is the empty string. *)
Lemma falsy_product_id_witness :
  action (json_post (Normal (review_body (VStr "") (num 5))))
  = bad_request "product_id is required".
Proof.
  refine (proj1 (proj1
    (falsy_product_id (json_post (Normal (review_body (VStr "") (num 5))))
       "a.myshopify.com" (review_body (VStr "") (num 5))
       (mkInputs (VStr "") (num 5) None "Great" "Ana" None None) _) _)).
  - submission_example.
  - simpl. auto.
Defined.

(** C9, counterexample: a submission whose identifier is the string "0"
    is not answered with 400; it is stored as a review of product 0 and
    answered with 200. *)
Lemma zero_string_counterexample :
  Store.run fresh1 (action (json_post (Normal (review_body (VStr "0") (num 5))))) []
  = (Normal (safeJson (created_payload (example_row 0 5)) 200), [example_row 0 5]).
Proof. evaluate. Qed.

(** ** Submission: a body that does not parse *)

Lemma normalize_empty :
  normalize (VObj []) = Normal (mkInputs VUndefined VUndefined None "" "" None None).
Proof. reflexivity. Qed.

(** C3 (as amended): for a POST with a resolved tenant whose body does not
    parse, the handler falls back to the empty field set, and answers 400
    "product_id is required", only when the content type declares neither
    JSON nor a form; when the content type declares JSON, or a form whose
    decoding fails, the failure reaches the handler's [catch] and the
    answer is 500. *)
Theorem unparsable_body (request : Request) (shop : string) (e : JsError) :
  method request = "POST" ->
  getShopFromRequest request = Some shop ->
  (declares_json request = false -> declares_form request = false ->
   json request = Throw e ->
   readBody request = Normal (VObj []) /\
   action request = bad_request "product_id is required") /\
  (declares_json request = true ->
   json request = Throw e ->
   readBody request = Throw e /\
   action request = server_error "Failed to submit review") /\
  (declares_json request = false -> declares_form request = true ->
   formData request = Throw e ->
   readBody request = Throw e /\
   action request = server_error "Failed to submit review").
Proof.
  intros Hm Hs.
  assert (Hfail : readBody request = Throw e ->
                  action request = server_error "Failed to submit review").
  { intros Hb. unfold action.
    rewrite Hm, Hs, (getShop_truthy _ _ Hs), Hb. reflexivity. }
  split; [|split].
  - intros Hnj Hnf Hj.
    assert (Hb : readBody request = Normal (VObj [])).
    { rewrite readBody_unfold, Hnj, Hnf, Hj. reflexivity. }
    split; [exact Hb|].
    apply (action_missing_id request shop (VObj [])
             (mkInputs VUndefined VUndefined None "" "" None None)).
    + split; [|split; [|split]]; auto using normalize_empty.
    + reflexivity.
  - intros Hdj Hj.
    assert (Hb : readBody request = Throw e).
    { rewrite readBody_unfold, Hdj. exact Hj. }
    split; [exact Hb | exact (Hfail Hb)].
  - intros Hnj Hdf Hf.
    assert (Hb : readBody request = Throw e).
    { rewrite readBody_unfold, Hnj, Hdf, Hf. reflexivity. }
    split; [exact Hb | exact (Hfail Hb)].
Qed.

(** C3, instance: a garbled body sent as [text/plain]. *)
Lemma unparsable_body_witness :
  action (plain_post (Throw SyntaxError)) = bad_request "product_id is required".
Proof.
  refine (proj2 (proj1
    (unparsable_body (plain_post (Throw SyntaxError)) "a.myshopify.com" SyntaxError
       _ _) _ _ _)); reflexivity.
Defined.

(** C3, counterexample: a garbled body sent as [application/json] is
    answered with 500, not with a 400 for a missing field. *)
Lemma unparsable_json_counterexample :
  action (json_post (Throw SyntaxError)) = server_error "Failed to submit review" /\
  Response.status (safeJson (failure "Failed to submit review") 500) = 500 /\
  action (json_post (Throw SyntaxError)) <> bad_request "product_id is required".
Proof.
  split; [reflexivity|]. split; [reflexivity|].
  intros E. apply (f_equal answer_body) in E. vm_compute in E. discriminate.
Qed.

(** ** Listing: the status filter *)

Lemma lookup_unknown (s : string) :
  s <> "pending" -> s <> "approved" -> s <> "rejected" ->
  ~ In s Object_prototype ->
  ReviewStatus_lookup s = None.
Proof.
  intros H1 H2 H3 Hp. unfold ReviewStatus_lookup.
  apply String.eqb_neq in H1, H2, H3. rewrite H1, H2, H3.
  destruct (existsb (String.eqb s) Object_prototype) eqn:E; [|reflexivity].
  apply existsb_exists in E as (x & Hin & Hx).
  apply String.eqb_eq in Hx. subst x. contradiction.
Qed.

Lemma lookup_known (s : ReviewStatus) :
  ReviewStatus_lookup (ReviewStatus_name s) = Some (Member s).
Proof. now destruct s. Qed.

(** A name of [Object.prototype] finds the inherited property. *)
Lemma lookup_inherited (s : string) :
  In s Object_prototype -> ReviewStatus_lookup s = Some (Inherited s).
Proof.
  intros H. repeat (destruct H as [<-|H]; [reflexivity|]). destruct H.
Qed.

(** The list handler with a resolved tenant and a product identifier that
    parses: one [findMany], answered with 200 and the rows found. *)
Lemma loader_query (request : Request) (shop : string) (pid : Z) :
  getShopFromRequest request = Some shop ->
  product_id_param request <> "" ->
  BigInt_of_string (product_id_param request) = Normal pid ->
  exists k,
    loader request =
    FindMany (FindManyArgs.mk shop pid (status_filter request) desc 50) k /\
    (forall rows, k (Normal rows) = ret (safeJson (listing_payload rows) 200)) /\
    (forall e, k (Throw e) = server_error "Failed to load reviews").
Proof.
  intros Hs Hne Hpid. unfold loader.
  rewrite Hs, (getShop_truthy _ _ Hs). cbn [negb].
  fold (product_id_param request). fold (status_param request).
  apply String.eqb_neq in Hne. rewrite Hne, Hpid.
  cbn [pbind review_findMany try_catch string_of].
  eexists. split; [reflexivity|]. split; reflexivity.
Qed.

(** Every store call of the list handler is a [findMany] with what the
    enum object holds under the name the parameter gives, [approved] when
    it holds nothing. *)
Lemma loader_call_inv (request : Request) (q : FindManyArgs.t)
    (k : Completion (list Review.t) -> Prog Response.t) :
  loader request = FindMany q k ->
  FindManyArgs.where_status q = status_filter request.
Proof.
  unfold loader.
  destruct (negb (Js.truthy (getShopFromRequest request))); [discriminate|].
  destruct (String.eqb _ ""); [discriminate|].
  destruct (BigInt_of_string _) as [pid|e]; [|discriminate].
  cbn [pbind review_findMany try_catch]. intros E. now injection E as <- _.
Qed.

Lemma unknown_status_default (request : Request) :
  no_known_status request ->
  ~ names_inherited request ->
  status_filter request = Member approved.
Proof.
  unfold no_known_status, names_inherited, status_filter.
  destruct (status_param request) as [s|]; cbn [coalesce string_of].
  - intros (H1 & H2 & H3) Hp. now rewrite lookup_unknown.
  - reflexivity.
Qed.

Lemma known_status_filter (request : Request) (s : ReviewStatus) :
  status_param request = Some (ReviewStatus_name s) ->
  status_filter request = Member s.
Proof.
  intros E. unfold status_filter. rewrite E. cbn [coalesce string_of].
  now rewrite lookup_known.
Qed.

Lemma inherited_status_filter (request : Request) :
  names_inherited request ->
  exists name,
    status_param request = Some name /\ status_filter request = Inherited name.
Proof.
  unfold names_inherited, status_filter.
  destruct (status_param request) as [s|]; [|contradiction].
  intros H. exists s. split; [reflexivity|]. cbn [coalesce string_of].
  now rewrite lookup_inherited.
Qed.

(** C5: the fallback misses the names the enum object inherits.  The list
    request with [status=constructor] names no known status, yet the
    handler does not filter on [approved]: its one store call asks for the
    property [constructor] of the enum object, which is no status. *)
Theorem inherited_status_name :
  no_known_status (list_get [("product_id", "42"); ("status", "constructor")]) /\
  ReviewStatus_lookup "constructor" = Some (Inherited "constructor") /\
  (forall calls,
     store_calls (loader (list_get [("product_id", "42"); ("status", "constructor")]))
       calls ->
     calls = [FindManyCall (FindManyArgs.mk "a.myshopify.com" 42
                              (Inherited "constructor") desc 50)]) /\
  Inherited "constructor" <> Member approved.
Proof.
  split; [cbn; repeat split; discriminate|]. split; [reflexivity|].
  split; [|discriminate].
  intros calls H.
  destruct (loader_query (list_get [("product_id", "42"); ("status", "constructor")])
              "a.myshopify.com" 42 eq_refl ltac:(discriminate) eq_refl)
    as (k & E & Hok & Herr).
  rewrite E in H. inversion H as [| |q k0 r l Hk]; subst. f_equal.
  destruct r as [rows|e]; [rewrite Hok in Hk | rewrite Herr in Hk]; now inversion Hk.
Qed.

(** ** Identifiers as text: reading a decimal numeral *)

Lemma digits_acc_uint (d : Decimal.uint) (acc : Z) :
  Numeral.digits_acc 10 acc (Str.chars (NilEmpty.string_of_uint d))
  = Some (uint_value d acc).
Proof.
  revert acc. induction d; intros acc; cbn [NilEmpty.string_of_uint uint_value];
    [reflexivity | ..];
    unfold Str.chars in *; cbn [list_ascii_of_string Numeral.digits_acc];
    match goal with
    | |- context [Numeral.digit_val ?c] =>
        let v := eval vm_compute in (Numeral.digit_val c) in
        change (Numeral.digit_val c) with v
    end;
    cbv iota; cbn [Z.ltb Z.compare Pos.compare Pos.compare_cont];
    rewrite IHd; f_equal; f_equal; lia.
Qed.

Lemma of_uint_acc_value (d : Decimal.uint) (p : positive) :
  Z.pos (Pos.of_uint_acc d p) = uint_value d (Z.pos p).
Proof.
  revert p. induction d; intros p; cbn [Pos.of_uint_acc uint_value];
    [reflexivity | ..]; rewrite IHd; f_equal; lia.
Qed.

Lemma of_uint_value (d : Decimal.uint) : Z.of_N (Pos.of_uint d) = uint_value d 0.
Proof.
  induction d; cbn [Pos.of_uint uint_value Z.of_N]; try exact IHd;
    try reflexivity; apply of_uint_acc_value.
Qed.

Lemma to_uint_value (p : positive) : uint_value (Pos.to_uint p) 0 = Z.pos p.
Proof. now rewrite <- of_uint_value, DecimalPos.Unsigned.of_to. Qed.

Lemma digit_not_ws (c : ascii) : In c decimal_chars -> Str.is_ws c = false.
Proof.
  intros H. repeat (destruct H as [<-|H]; [reflexivity|]). destruct H.
Qed.

Lemma uint_chars (d : Decimal.uint) :
  Forall (fun c => In c decimal_chars) (Str.chars (NilEmpty.string_of_uint d)).
Proof.
  unfold Str.chars.
  induction d; cbn [NilEmpty.string_of_uint list_ascii_of_string]; constructor;
    try assumption; cbn; auto 12.
Qed.

Lemma uint_chars_nonempty (d : Decimal.uint) :
  d <> Decimal.Nil -> Str.chars (NilEmpty.string_of_uint d) <> [].
Proof. destruct d; [contradiction | cbn; discriminate ..]. Qed.

Lemma ltrim_id (l : list ascii) :
  Forall (fun c => Str.is_ws c = false) l -> Str.ltrim l = l.
Proof.
  destruct 1 as [|c l Hc Hl]; cbn [Str.ltrim]; [reflexivity | now rewrite Hc].
Qed.

Lemma trim_id (l : list ascii) :
  Forall (fun c => Str.is_ws c = false) l -> Str.trim l = l.
Proof.
  intros H. unfold Str.trim. rewrite (ltrim_id l H), ltrim_id.
  - apply rev_involutive.
  - now apply Forall_rev.
Qed.

Lemma digits_not_ws (l : list ascii) :
  Forall (fun c => In c decimal_chars) l -> Forall (fun c => Str.is_ws c = false) l.
Proof. apply Forall_impl. exact digit_not_ws. Qed.

(** A run of decimal digits is no literal with a radix prefix. *)
Lemma non_decimal_digits (l : list ascii) :
  Forall (fun c => In c decimal_chars) l -> Numeral.non_decimal l = None.
Proof.
  destruct 1 as [|c l Hc Hl]; [reflexivity|].
  destruct Hl as [|p l Hp Hl].
  - repeat (destruct Hc as [<-|Hc]; [reflexivity|]). destruct Hc.
  - repeat (destruct Hc as [<-|Hc];
            [ try reflexivity;
              repeat (destruct Hp as [<-|Hp]; [reflexivity|]); destruct Hp |]).
    destruct Hc.
Qed.

(** A run of decimal digits starts with no sign. *)
Lemma unsigned_digits (l : list ascii) (A : Type) (plus minus : list ascii -> A) (other : A) :
  Forall (fun c => In c decimal_chars) l ->
  match l with
  | "+"%char :: r => plus r
  | "-"%char :: r => minus r
  | _ => other
  end = other.
Proof.
  destruct 1 as [|c l Hc Hl]; [reflexivity|].
  repeat (destruct Hc as [<-|Hc]; [reflexivity|]). destruct Hc.
Qed.

Lemma StringToBigInt_uint (d : Decimal.uint) :
  d <> Decimal.Nil ->
  Numeral.StringToBigInt (NilEmpty.string_of_uint d) = Some (uint_value d 0) /\
  Numeral.StringToBigInt (String "-" (NilEmpty.string_of_uint d))
  = Some (- uint_value d 0).
Proof.
  intros Hd.
  pose proof (uint_chars d) as Hc.
  pose proof (uint_chars_nonempty d Hd) as Hne.
  assert (Hdig : Numeral.digits 10 (Str.chars (NilEmpty.string_of_uint d))
                 = Some (uint_value d 0)).
  { unfold Numeral.digits. rewrite digits_acc_uint.
    destruct (Str.chars (NilEmpty.string_of_uint d)); [contradiction | reflexivity]. }
  split.
  - unfold Numeral.StringToBigInt.
    rewrite (trim_id _ (digits_not_ws _ Hc)), (non_decimal_digits _ Hc).
    rewrite (unsigned_digits _ _ _ _ _ Hc), Hdig.
    destruct (Str.chars (NilEmpty.string_of_uint d)); [contradiction | reflexivity].
  - unfold Numeral.StringToBigInt.
    change (Str.chars (String "-" (NilEmpty.string_of_uint d)))
      with ("-"%char :: Str.chars (NilEmpty.string_of_uint d)).
    rewrite trim_id by (constructor; [reflexivity | now apply digits_not_ws]).
    cbn [Numeral.non_decimal]. now rewrite Hdig.
Qed.

(** The decimal text of an integer parses back to the integer. *)
Lemma decimal_parses (z : Z) : Numeral.StringToBigInt (Str.decimal z) = Some z.
Proof.
  destruct z as [|p|p].
  - reflexivity.
  - unfold Str.decimal. cbn [Z.to_int NilZero.string_of_int].
    pose proof (DecimalPos.Unsigned.to_uint_nonnil p) as Hne.
    destruct (StringToBigInt_uint _ Hne) as (H & _).
    unfold NilZero.string_of_uint.
    destruct (Pos.to_uint p) eqn:E; [contradiction | ..];
      rewrite H, <- E, to_uint_value; reflexivity.
  - unfold Str.decimal. cbn [Z.to_int NilZero.string_of_int].
    pose proof (DecimalPos.Unsigned.to_uint_nonnil p) as Hne.
    destruct (StringToBigInt_uint _ Hne) as (_ & H).
    unfold NilZero.string_of_uint.
    destruct (Pos.to_uint p) eqn:E; [contradiction | ..];
      rewrite H, <- E, to_uint_value; reflexivity.
Qed.

Lemma decimal_nonempty (z : Z) : Str.decimal z <> "".
Proof.
  intros E. pose proof (decimal_parses z) as H. rewrite E in H.
  injection H as <-. discriminate.
Qed.

(** ** Identifiers as text: what the response shows *)

Lemma append_assoc (a b c : string) : ((a ++ b) ++ c = a ++ b ++ c)%string.
Proof. induction a as [|x a IH]; cbn; [reflexivity | now f_equal]. Qed.

Lemma append_nil_r (a : string) : (a ++ "")%string = a.
Proof. induction a as [|x a IH]; cbn; [reflexivity | now f_equal]. Qed.

Lemma occurs_refl (t : string) : occurs t t.
Proof. exists "", "". cbn. now rewrite append_nil_r. Qed.

Lemma occurs_wrap (t s pre post : string) :
  occurs t s -> occurs t (pre ++ s ++ post).
Proof.
  intros (p & q & ->). exists (pre ++ p)%string, (q ++ post)%string.
  now rewrite !append_assoc.
Qed.

Lemma occurs_trans (t s u : string) : occurs t s -> occurs s u -> occurs t u.
Proof. intros Hts (p & q & ->). now apply occurs_wrap. Qed.

Lemma join_occurs (sep x : string) (l : list string) :
  In x l -> occurs x (Str.join sep l).
Proof.
  induction l as [|a l IH]; [contradiction|].
  intros [->|Hin].
  - destruct l as [|b l]; cbn [Str.join]; [apply occurs_refl|].
    exists "", (sep ++ Str.join sep (b :: l))%string. reflexivity.
  - destruct l as [|b l]; [contradiction|].
    change (Str.join sep (a :: b :: l))
      with (a ++ (sep ++ Str.join sep (b :: l)))%string.
    destruct (IH Hin) as (p & q & ->).
    exists (a ++ sep ++ p)%string, q. now rewrite !append_assoc.
Qed.

Lemma prefixb_app (t q : list ascii) : Str.prefixb t (t ++ q) = true.
Proof.
  induction t as [|c t IH]; cbn [Str.prefixb app]; [reflexivity|].
  now rewrite Ascii.eqb_refl, IH.
Qed.

Lemma includes_chars_app (p t q : list ascii) :
  Str.includes_chars (p ++ t ++ q) t = true.
Proof.
  induction p as [|c p IH]; cbn [app].
  - destruct (t ++ q) eqn:E; cbn [Str.includes_chars]; rewrite <- E, prefixb_app;
      reflexivity.
  - cbn [Str.includes_chars]. rewrite IH. apply orb_true_r.
Qed.

(** A text that occurs in another is found by [includes]. *)
Lemma occurs_includes (t s : string) : occurs t s -> Str.includes s t = true.
Proof.
  intros (p & q & ->). unfold Str.includes. rewrite !chars_app.
  apply includes_chars_app.
Qed.

Lemma concat_plain (l : list ascii) :
  Forall (fun c => JSON.escape c = String c "") l ->
  concat "" (map JSON.escape l) = Str.of_chars l.
Proof.
  induction 1 as [|c l Hc Hl IH]; [reflexivity|].
  cbn [map]. rewrite Hc.
  destruct l as [|c' l]; [reflexivity|].
  change (concat "" (String c "" :: map JSON.escape (c' :: l)))
    with (String c (concat "" (map JSON.escape (c' :: l)))).
  now rewrite IH.
Qed.

(** A string whose characters need no escape is written between two
    quotation marks as it is. *)
Lemma quote_plain (s : string) :
  Forall (fun c => JSON.escape c = String c "") (Str.chars s) ->
  JSON.quote s = quoted s.
Proof.
  intros H. unfold JSON.quote, quoted.
  now rewrite (concat_plain _ H), of_chars_chars.
Qed.

(** The decimal text of an integer: digits, after a minus sign when the
    integer is negative. *)
Lemma decimal_text (z : Z) :
  Forall (fun c => In c ("-"%char :: decimal_chars)) (Str.chars (Str.decimal z)).
Proof.
  assert (H : forall d, Forall (fun c => In c ("-"%char :: decimal_chars))
                          (Str.chars (NilZero.string_of_uint d))).
  { intros d. unfold NilZero.string_of_uint.
    assert (Hd := uint_chars d).
    destruct d; [constructor; [cbn; auto | constructor] | ..];
      (eapply Forall_impl; [|exact Hd]); intros c Hc; now right. }
  destruct z as [|p|p]; unfold Str.decimal; cbn [Z.to_int NilZero.string_of_int].
  - constructor; [cbn; auto | constructor].
  - apply H.
  - change (Str.chars (String "-" (NilZero.string_of_uint (Pos.to_uint p))))
      with ("-"%char :: Str.chars (NilZero.string_of_uint (Pos.to_uint p))).
    constructor; [now left | apply H].
Qed.

Lemma plain_decimal_char (c : ascii) :
  In c ("-"%char :: decimal_chars) -> JSON.escape c = String c "".
Proof.
  intros H. repeat (destruct H as [<-|H]; [reflexivity|]). destruct H.
Qed.

(** A BigInt is written as its decimal digits between quotation marks:
    a string, not a numeric literal. *)
Lemma stringify_BigInt (z : Z) : JSON.stringify (DBigInt z) = quoted (Str.decimal z).
Proof.
  unfold JSON.stringify. cbn [JSON.serialize JSON.render JSON.BigInt_toString].
  apply quote_plain. eapply Forall_impl; [|apply decimal_text].
  exact plain_decimal_char.
Qed.

Lemma render_obj (members : list (string * Json)) :
  JSON.render (JObj members)
  = ("{" ++ Str.join ","
              (map (fun kv => (JSON.quote (fst kv) ++ ":" ++ JSON.render (snd kv))%string)
                 members)
         ++ "}")%string.
Proof. reflexivity. Qed.

Lemma render_arr (items : list Json) :
  JSON.render (JArr items) = ("[" ++ Str.join "," (map JSON.render items) ++ "]")%string.
Proof. reflexivity. Qed.

(** The text of an object holds the text of each of its members. *)
Lemma member_occurs (members : list (string * Json)) (k : string) (v : Json) :
  In (k, v) members ->
  occurs (JSON.quote k ++ ":" ++ JSON.render v) (JSON.render (JObj members)).
Proof.
  intros Hin. rewrite render_obj. apply occurs_wrap, join_occurs.
  apply (in_map (fun kv => (JSON.quote (fst kv) ++ ":" ++ JSON.render (snd kv))%string)
           _ _ Hin).
Qed.

Lemma value_occurs (k : string) (v : Json) :
  occurs (JSON.render v) (JSON.quote k ++ ":" ++ JSON.render v).
Proof.
  exists (JSON.quote k ++ ":")%string, "".
  now rewrite append_nil_r, append_assoc.
Qed.

Lemma item_occurs (items : list Json) (v : Json) :
  In v items -> occurs (JSON.render v) (JSON.render (JArr items)).
Proof.
  intros Hin. rewrite render_arr. apply occurs_wrap, join_occurs.
  now apply in_map.
Qed.

Lemma serialize_productId (r : Review.t) :
  member "productId" (JSON.serialize (Review_data r))
  = Some (JStr (Str.decimal (Review.productId r))).
Proof. reflexivity. Qed.

Lemma serialize_listing (rows : list Review.t) :
  JSON.serialize (listing_payload rows)
  = JObj [ ("ok", JBool true);
           ("reviews", JArr (map (fun r => JSON.serialize (Review_data r)) rows)) ].
Proof.
  unfold listing_payload. cbn [JSON.serialize map fst snd].
  now rewrite map_map.
Qed.

Lemma serialize_created (r : Review.t) :
  JSON.serialize (created_payload r)
  = JObj [("ok", JBool true); ("review", JSON.serialize (Review_data r))].
Proof. reflexivity. Qed.

(** The text of a review holds its member [productId], whose value is the
    decimal text of the identifier between quotation marks. *)
Lemma review_text (r : Review.t) :
  occurs (productId_member (Str.decimal (Review.productId r)))
    (JSON.render (JSON.serialize (Review_data r))).
Proof.
  assert (E : productId_member (Str.decimal (Review.productId r))
              = (JSON.quote "productId" ++ ":"
                 ++ JSON.render (JStr (Str.decimal (Review.productId r))))%string).
  { unfold productId_member. cbn [JSON.render].
    change (JSON.quote (Str.decimal (Review.productId r)))
      with (JSON.stringify (DBigInt (Review.productId r))).
    now rewrite stringify_BigInt. }
  rewrite E.
  unfold Review_data. cbn [JSON.serialize map fst snd].
  apply member_occurs. right. right. left. reflexivity.
Qed.

Lemma created_body (r : Review.t) :
  shows_productId (Response.body (safeJson (created_payload r) 200))
    (Str.decimal (Review.productId r)) = true.
Proof.
  apply occurs_includes.
  change (Response.body (safeJson (created_payload r) 200))
    with (JSON.render (JSON.serialize (created_payload r))).
  rewrite serialize_created.
  eapply occurs_trans; [apply review_text|].
  eapply occurs_trans; [apply (value_occurs "review")|].
  apply member_occurs. right. left. reflexivity.
Qed.

Lemma listing_body (rows : list Review.t) (r : Review.t) :
  In r rows ->
  shows_productId (Response.body (safeJson (listing_payload rows) 200))
    (Str.decimal (Review.productId r)) = true.
Proof.
  intros Hin. apply occurs_includes.
  change (Response.body (safeJson (listing_payload rows) 200))
    with (JSON.render (JSON.serialize (listing_payload rows))).
  rewrite serialize_listing.
  eapply occurs_trans; [apply review_text|].
  eapply occurs_trans;
    [apply (item_occurs (map (fun r => JSON.serialize (Review_data r)) rows));
     apply (in_map (fun r => JSON.serialize (Review_data r)) _ _ Hin)|].
  eapply occurs_trans; [apply (value_occurs "reviews")|].
  apply member_occurs. right. left. reflexivity.
Qed.

(** The 200 answers of the handlers: the created review, a listing. *)
Lemma action_answer_200 (request : Request) (resp : Response.t) :
  ends_with (action request) (Normal resp) ->
  Response.status resp = 200 ->
  exists r, resp = safeJson (created_payload r) 200.
Proof.
  intros H H200.
  destruct (action_shape request) as [(resp0 & E & Hin) | (shop & body & i & d & k & Hsub & E)].
  { rewrite E in H. unfold ret in H. inversion H; subst.
    rewrite H200 in Hin. cbn in Hin. intuition discriminate. }
  destruct (action_create_inv _ _ _ _ Hsub _ _ E)
    as (pid & rating & _ & _ & _ & _ & _ & _ & _ & Hok & Herr).
  rewrite E in H. inversion H as [|d0 k0 r c Hk|]; subst.
  destruct r as [created|e]; [rewrite Hok in Hk | rewrite Herr in Hk];
    unfold server_error, ret in Hk; inversion Hk; subst.
  - now exists created.
  - rewrite status_safeJson in H200. discriminate.
Qed.

Lemma loader_answer_200 (request : Request) (resp : Response.t) :
  ends_with (loader request) (Normal resp) ->
  Response.status resp = 200 ->
  exists rows, resp = safeJson (listing_payload rows) 200.
Proof.
  unfold loader.
  destruct (negb (Js.truthy (getShopFromRequest request))); cbn [try_catch ret].
  { intros H. inversion H; subst. rewrite status_safeJson. discriminate. }
  destruct (String.eqb _ ""); cbn [try_catch ret].
  { intros H. inversion H; subst. rewrite status_safeJson. discriminate. }
  destruct (BigInt_of_string _) as [pid|e]; cbn [try_catch ret pbind review_findMany].
  2:{ intros H. inversion H; subst. rewrite status_safeJson. discriminate. }
  intros H H200. inversion H as [| |q k r c Hk]; subst.
  destruct r as [rows|e]; cbn [try_catch pbind ret] in Hk; inversion Hk; subst.
  - now exists rows.
  - rewrite status_safeJson in H200. discriminate.
Qed.

(** ** Round trip of a product identifier *)

Lemma insert_older (r x : Review.t) (l : list Review.t) :
  Review.createdAt x < Review.createdAt r ->
  Store.insert desc x (r :: l) = r :: Store.insert desc x l.
Proof.
  intros H. cbn [Store.insert Store.before].
  destruct (Z.ltb_spec (Review.createdAt r) (Review.createdAt x)); [lia | reflexivity].
Qed.

(** A row newer than all the others is listed first. *)
Lemma sort_newest (r : Review.t) (l : list Review.t) :
  Forall (fun x => Review.createdAt x < Review.createdAt r) l ->
  Store.sort desc (l ++ [r]) = r :: Store.sort desc l.
Proof.
  unfold Store.sort. rewrite fold_right_app. cbn [fold_right Store.insert].
  induction 1 as [|x l Hx Hl IH]; cbn [fold_right].
  - reflexivity.
  - rewrite IH. now apply insert_older.
Qed.

Lemma Forall_filter_keep {A : Type} (P : A -> Prop) (f : A -> bool) (l : list A) :
  Forall P l -> Forall P (filter f l).
Proof.
  induction 1 as [|x l Hx Hl IH]; cbn [filter].
  - constructor.
  - destruct (f x); [constructor|]; assumption.
Qed.

Lemma findMany_newest (q : FindManyArgs.t) (r : Review.t) (db : Store.Db) :
  Store.fits_int64 (FindManyArgs.where_productId q) = true ->
  Store.fits_status (FindManyArgs.where_status q) = true ->
  FindManyArgs.orderBy_createdAt q = desc ->
  FindManyArgs.take q = 50 ->
  Store.matches q r = true ->
  Forall (fun x => Review.createdAt x < Review.createdAt r) db ->
  Store.findMany q (db ++ [r])
  = Normal (r :: firstn 49 (Store.sort desc (filter (Store.matches q) db))).
Proof.
  intros Hfit Hst Ho Ht Hm Hold. unfold Store.findMany.
  rewrite Hfit, Hst, Ho, Ht, filter_app. cbn [andb filter]. rewrite Hm.
  rewrite sort_newest by now apply Forall_filter_keep.
  reflexivity.
Qed.

(** C7 (as amended): in the body of a response a review's product
    identifier, a BigInt, is written as the string of its decimal digits
    (between quotation marks, not as a numeric literal), and that text is
    read back by [BigInt] as the same integer; this holds of the review in
    every 200 answer of the submit handler and of every review in every
    200 answer of the list handler.  A review submitted with product_id
    "123456789012345" and answered with 200 is returned, first, by a later
    list request of the same tenant for that product with [status=pending]
    (the status it was created in), and the bodies of both responses show
    its identifier as the string "123456789012345". *)
Theorem product_id_round_trip :
  (forall z,
     JSON.stringify (DBigInt z) = quoted (Str.decimal z) /\
     BigInt_of_string (Str.decimal z) = Normal z) /\
  (forall request resp,
     ends_with (action request) (Normal resp) ->
     Response.status resp = 200 ->
     exists r,
       resp = safeJson (created_payload r) 200 /\
       shows_productId (Response.body resp) (Str.decimal (Review.productId r)) = true) /\
  (forall request resp,
     ends_with (loader request) (Normal resp) ->
     Response.status resp = 200 ->
     exists rows,
       resp = safeJson (listing_payload rows) 200 /\
       forall r, In r rows ->
         shows_productId (Response.body resp) (Str.decimal (Review.productId r)) = true) /\
  (forall (post get : Request) (shop : string) (body : value) (i : Inputs)
          (f f' : Store.Fresh) (db db' : Store.Db) (resp : Response.t),
     submission post shop body i ->
     productIdRaw i = VStr big_id ->
     Store.run f (action post) db = (Normal resp, db') ->
     Response.status resp = 200 ->
     Forall (fun x => Review.createdAt x < Store.now f) db ->
     getShopFromRequest get = Some shop ->
     product_id_param get = big_id ->
     status_param get = Some "pending" ->
     exists r rest resp',
       resp = safeJson (created_payload r) 200 /\
       Store.run f' (loader get) db' = (Normal resp', db') /\
       resp' = safeJson (listing_payload (r :: rest)) 200 /\
       member "productId" (JSON.serialize (Review_data r)) = Some (JStr big_id) /\
       shows_productId (Response.body resp) big_id = true /\
       shows_productId (Response.body resp') big_id = true).
Proof.
  assert (Hparse : forall z, BigInt_of_string (Str.decimal z) = Normal z).
  { intros z. unfold BigInt_of_string, Js.ToBigInt. cbn [Js.ToString cbind].
    now rewrite decimal_parses. }
  split; [intros z; split; [apply stringify_BigInt | apply Hparse]|].
  split.
  { intros request resp H H200.
    destruct (action_answer_200 _ _ H H200) as (r & ->).
    exists r. split; [reflexivity | apply created_body]. }
  split.
  { intros request resp H H200.
    destruct (loader_answer_200 _ _ H H200) as (rows & ->).
    exists rows. split; [reflexivity|]. intros r Hin. now apply listing_body. }
  intros post get shop body i f f' db db' resp Hsub Hraw Hrun H200 Hold Hs Hp Hst.
  destruct (action_shape post) as [(resp0 & E & Hin) | (shop1 & body1 & i1 & d & k & _ & E)].
  { rewrite E in Hrun. cbn in Hrun. injection Hrun as <- <-.
    rewrite H200 in Hin. cbn in Hin. intuition discriminate. }
  destruct (action_create_inv _ _ _ _ Hsub _ _ E)
    as (pid & rating & _ & Hpid & _ & _ & _ & _ & Hd & Hok & Herr).
  rewrite Hraw in Hpid. vm_compute in Hpid. injection Hpid as <-.
  rewrite E in Hrun.
  destruct (Store.fits_int32 (CreateData.rating d)
            && Store.fits_int64 (CreateData.productId d)) eqn:Hfit.
  2:{ rewrite (run_create_refused _ _ _ _ Hfit), Herr in Hrun.
      cbn in Hrun. injection Hrun as <- <-. discriminate. }
  rewrite (run_create_accepted _ _ _ _ Hfit), Hok in Hrun.
  cbn [Store.run ret] in Hrun. injection Hrun as <- <-.
  set (r := Store.row f d).
  assert (Hid : Str.decimal (Review.productId r) = big_id)
    by (subst r d; reflexivity).
  destruct (loader_query get shop 123456789012345 Hs) as (k' & E' & Hok' & _).
  { rewrite Hp. discriminate. }
  { rewrite Hp. reflexivity. }
  unfold status_filter in E'. rewrite Hst in E'. cbn [coalesce string_of] in E'.
  change (ReviewStatus_lookup "pending") with (Some (Member pending)) in E'.
  set (rest := firstn 49 (Store.sort desc
                            (filter (Store.matches
                                       (FindManyArgs.mk shop 123456789012345
                                          (Member pending) desc 50))
                                    db))).
  exists r, rest, (safeJson (listing_payload (r :: rest)) 200).
  split; [reflexivity|]. split.
  { rewrite E'. cbn [Store.run].
    rewrite findMany_newest; try reflexivity.
    + now rewrite Hok'.
    + subst r d. unfold Store.matches. cbn. now rewrite String.eqb_refl.
    + subst r. exact Hold. }
  split; [reflexivity|]. split.
  { rewrite serialize_productId. now rewrite Hid. }
  split.
  - rewrite <- Hid. apply created_body.
  - rewrite <- Hid. apply listing_body. now left.
Qed.

(** C7, instance: the submission and the list request with
    [status=pending] on an empty table. *)
Lemma product_id_round_trip_witness :
  exists r rest,
    Store.run fresh2
      (loader (list_get [("product_id", big_id); ("status", "pending")]))
      [example_row 123456789012345 5]
    = (Normal (safeJson (listing_payload (r :: rest)) 200),
       [example_row 123456789012345 5]) /\
    shows_productId (Response.body (safeJson (listing_payload (r :: rest)) 200)) big_id
    = true.
Proof.
  destruct
    (proj2 (proj2 (proj2 product_id_round_trip))
       (json_post (Normal (review_body (VStr big_id) (num 5))))
       (list_get [("product_id", big_id); ("status", "pending")])
       "a.myshopify.com" (review_body (VStr big_id) (num 5))
       (mkInputs (VStr big_id) (num 5) None "Great" "Ana" None None)
       fresh1 fresh2 [] [example_row 123456789012345 5]
       (safeJson (created_payload (example_row 123456789012345 5)) 200))
    as (r & rest & resp' & _ & Hlist & -> & _ & _ & Hshow).
  - submission_example.
  - reflexivity.
  - evaluate.
  - reflexivity.
  - constructor.
  - reflexivity.
  - reflexivity.
  - reflexivity.
  - exists r, rest. split; assumption.
Defined.

(** C7, counterexample: right after the submission a list request for the
    product without a status parameter returns no review, the new one
    being [pending] and the default filter [approved]: the body of the
    answer to the submission shows the identifier, the body of the
    listing does not.  (The identifier of the example is exactly
    representable as a number.) *)
Lemma default_listing_counterexample :
  Store.run fresh1 (action (json_post (Normal (review_body (VStr big_id) (num 5))))) []
  = (Normal (safeJson (created_payload (example_row 123456789012345 5)) 200),
     [example_row 123456789012345 5]) /\
  Store.run fresh2 (loader (list_get [("product_id", big_id)]))
    [example_row 123456789012345 5]
  = (Normal (safeJson (listing_payload []) 200), [example_row 123456789012345 5]) /\
  shows_productId
    (Response.body (safeJson (created_payload (example_row 123456789012345 5)) 200))
    big_id = true /\
  shows_productId (Response.body (safeJson (listing_payload []) 200)) big_id = false /\
  Num.to_Z (Num.of_Z 123456789012345) = 123456789012345.
Proof. split; [|split; [|split; [|split]]]; evaluate. Qed.

(** * Further properties of the handlers *)

(** ** Every request is answered *)

Ltac answered :=
  eexists; split; [reflexivity|];
  split;
  [ lazymatch goal with
    | |- answer (safeJson (failure _) _) => apply answer_failure; discriminate
    | |- answer (safeJson (DObj (_ :: ("review", _) :: _)) _) =>
        exact (answer_created _)
    | |- answer (safeJson (DObj (_ :: ("reviews", _) :: _)) _) =>
        exact (answer_listing _)
    end
  | status_in ].

Lemma loader_outcome (request : Request) (c : Completion Response.t) :
  ends_with (loader request) c ->
  exists resp,
    c = Normal resp /\ answer resp /\ In (Response.status resp) [200; 400; 401; 500].
Proof.
  unfold loader.
  destruct (negb (Js.truthy (getShopFromRequest request))); cbn [try_catch ret].
  { intros H. ends_inv H. answered. }
  destruct (String.eqb _ ""); cbn [try_catch ret].
  { intros H. ends_inv H. answered. }
  destruct (BigInt_of_string _) as [pid|e]; cbn [try_catch ret pbind review_findMany].
  - intros H. repeat ends_step; answered.
  - intros H. ends_inv H. answered.
Qed.

Lemma action_outcome (request : Request) (c : Completion Response.t) :
  ends_with (action request) c ->
  exists resp,
    c = Normal resp /\ answer resp /\
    In (Response.status resp)
       (if String.eqb (method request) "POST" then [200; 400; 401; 500] else [405]).
Proof.
  unfold action.
  destruct (String.eqb (method request) "POST"); cbn [negb].
  2:{ intros H. ends_inv H. answered. }
  destruct (negb (Js.truthy (getShopFromRequest request))); cbn [try_catch ret].
  { intros H. ends_inv H. answered. }
  destruct (readBody request) as [body|e]; cbn [lift pbind try_catch ret].
  2:{ intros H. ends_inv H. answered. }
  destruct (normalize body) as [i|e]; cbn [lift pbind try_catch ret].
  2:{ intros H. ends_inv H. answered. }
  destruct (Js.ToBoolean (productIdRaw i)); cbn [negb try_catch ret].
  2:{ intros H. ends_inv H. answered. }
  destruct (Js.ToBigInt (productIdRaw i)) as [pid|e]; cbn [try_catch ret].
  2:{ intros H. ends_inv H. answered. }
  destruct (Js.ToNumber (ratingRaw i)) as [rating|e]; cbn [lift pbind try_catch ret].
  2:{ intros H. ends_inv H. answered. }
  destruct (rating_out_of_range rating); cbn [try_catch ret].
  { intros H. ends_inv H. answered. }
  destruct (_ || _); cbn [try_catch ret pbind review_create].
  { intros H. ends_inv H. answered. }
  intros H. repeat ends_step; answered.
Qed.

Lemma ends_with_eq {A : Type} (m : Prog A) (c : Completion A) :
  m = Done c -> ends_with m c.
Proof. intros ->. constructor. Qed.

(** X1: neither handler lets an exception escape.  Whatever the request
    and whatever the store answers (a result or a failure), the list
    handler ends with a response of status 200, 400, 401 or 500 and the
    submit handler with one of status 200, 400, 401, 405 or 500. *)
Theorem handlers_always_answer (request : Request) (c : Completion Response.t) :
  (ends_with (loader request) c ->
   exists resp, c = Normal resp /\ In (Response.status resp) [200; 400; 401; 500]) /\
  (ends_with (action request) c ->
   exists resp,
     c = Normal resp /\ In (Response.status resp) [200; 400; 401; 405; 500]).
Proof.
  split; intros H.
  - destruct (loader_outcome _ _ H) as (resp & E & _ & Hin). now exists resp.
  - destruct (action_outcome _ _ H) as (resp & E & _ & Hin).
    exists resp. split; [exact E|].
    destruct (String.eqb (method request) "POST"); cbn [In] in *; intuition.
Qed.

(** X1, instance: a list request without a product identifier. *)
Lemma handlers_always_answer_witness :
  exists resp,
    Normal (safeJson (failure "Missing product_id") 400) = Normal resp /\
    In (Response.status resp) [200; 400; 401; 500].
Proof.
  refine (proj1 (handlers_always_answer (list_get [])
                   (Normal (safeJson (failure "Missing product_id") 400))) _).
  apply ends_with_eq. reflexivity.
Defined.

Lemma answer_envelope (resp : Response.t) :
  answer resp ->
  Response.headers resp = [("Content-Type", "application/json")] /\
  exists j,
    Response.body resp = JSON.render j /\
    member "ok" j = Some (JBool (Response.status resp =? 200)) /\
    (Response.status resp <> 200 ->
     exists error, j = JObj [("ok", JBool false); ("error", JStr error)]).
Proof.
  intros [error st Hst | r | rows]; (split; [reflexivity|]).
  - exists (JSON.serialize (failure error)). split; [reflexivity|].
    rewrite status_safeJson. apply Z.eqb_neq in Hst. rewrite Hst.
    split; [reflexivity|]. intros _. now exists error.
  - exists (JSON.serialize (created_payload r)). split; [reflexivity|].
    rewrite status_safeJson. split; [reflexivity|]. intros H. now elim H.
  - exists (JSON.serialize (listing_payload rows)). split; [reflexivity|].
    rewrite status_safeJson. split; [reflexivity|]. intros H. now elim H.
Qed.

(** X2: every response of the two handlers is JSON with the header
    [Content-Type: application/json]; its body is an object whose member
    [ok] is true exactly when the status is 200, and with any other status
    the object is [{ok: false, error: <message>}] and nothing else. *)
Theorem response_envelope (request : Request) (resp : Response.t) :
  ends_with (loader request) (Normal resp) \/
  ends_with (action request) (Normal resp) ->
  Response.headers resp = [("Content-Type", "application/json")] /\
  exists j,
    Response.body resp = JSON.render j /\
    member "ok" j = Some (JBool (Response.status resp =? 200)) /\
    (Response.status resp <> 200 ->
     exists error, j = JObj [("ok", JBool false); ("error", JStr error)]).
Proof.
  intros [H|H].
  - destruct (loader_outcome _ _ H) as (r & E & Ha & _).
    injection E as <-. now apply answer_envelope.
  - destruct (action_outcome _ _ H) as (r & E & Ha & _).
    injection E as <-. now apply answer_envelope.
Qed.

(** X2, instance: the answer to a POST without a tenant. *)
Lemma response_envelope_witness :
  Response.headers (safeJson (failure missing_shop_post) 401)
  = [("Content-Type", "application/json")].
Proof.
  refine (proj1 (response_envelope (mkRequest "POST" [] (mkURL "app.example.com" [])
                                       no_body no_form)
                   (safeJson (failure missing_shop_post) 401) _)).
  right. apply ends_with_eq. reflexivity.
Defined.

(** X3: the submit handler answers 405 exactly to the requests whose method
    is not POST, and it does so before looking at the tenant or the body:
    such a request gets "Method not allowed" without a store call. *)
Theorem method_gate (request : Request) :
  (forall resp, ends_with (action request) (Normal resp) ->
     (Response.status resp = 405 <-> method request <> "POST")) /\
  (method request <> "POST" ->
   action request = ret (safeJson (failure "Method not allowed") 405)).
Proof.
  split; [|apply action_not_post].
  intros resp H. destruct (action_outcome _ _ H) as (r & E & _ & Hin).
  injection E as <-.
  destruct (String.eqb_spec (method request) "POST") as [Hm|Hm]; cbn [In] in Hin.
  - split; [|contradiction]. intros E. rewrite E in Hin. intuition discriminate.
  - split; [auto|]. intros _. intuition.
Qed.

(** X3, instance: a PUT with neither tenant nor body. *)
Lemma method_gate_witness :
  action (mkRequest "PUT" [] (mkURL "app.example.com" []) no_body no_form)
  = ret (safeJson (failure "Method not allowed") 405).
Proof.
  refine (proj2 (method_gate
                   (mkRequest "PUT" [] (mkURL "app.example.com" []) no_body no_form))
            _).
  discriminate.
Defined.

(** ** What the submit handler writes *)

Lemma action_call_inv (request : Request) (d : CreateData.t)
    (k : Completion Review.t -> Prog Response.t) :
  action request = Create d k ->
  exists shop body i pid rating,
    submission request shop body i /\
    Js.ToBigInt (productIdRaw i) = Normal pid /\
    Js.ToNumber (ratingRaw i) = Normal rating /\
    authorName i <> "" /\ text i <> "" /\
    d = create_data shop pid rating i /\
    (forall e, k (Throw e) = server_error "Failed to submit review").
Proof.
  intros E.
  destruct (action_shape request) as [(resp & E' & _) | (shop & body & i & d' & k' & Hsub & _)].
  { rewrite E' in E. discriminate. }
  destruct (action_create_inv _ _ _ _ Hsub _ _ E)
    as (pid & rating & _ & Hpid & Hn & _ & Ha & Ht & Hd & _ & Herr).
  exists shop, body, i, pid, rating. repeat split; try assumption; apply Hsub.
Qed.

(** X4: a review is only ever written for the tenant the request resolved
    to, by a POST, and with the fields as normalised from the body.  In a
    complete run of the submit handler, whatever the store answers, there
    is no store call or exactly one, a create, and its data carries the
    resolved shop (a non-empty string), the parsed identifier and rating,
    a non-empty text and a non-empty author name. *)
Theorem created_data (request : Request) (calls : list StoreCall) :
  store_calls (action request) calls ->
  calls = [] \/
  exists d,
    calls = [CreateCall d] /\
    method request = "POST" /\
    getShopFromRequest request = Some (CreateData.shopDomain d) /\
    CreateData.shopDomain d <> "" /\
    CreateData.body d <> "" /\
    CreateData.authorName d <> "" /\
    exists body i,
      readBody request = Normal body /\ normalize body = Normal i /\
      Js.ToBigInt (productIdRaw i) = Normal (CreateData.productId d) /\
      Js.ToNumber (ratingRaw i) = Normal (CreateData.rating d) /\
      CreateData.body d = text i /\
      CreateData.authorName d = authorName i /\
      CreateData.title d = title i /\
      CreateData.authorEmail d = authorEmail i /\
      CreateData.productHandle d = productHandle i.
Proof.
  intros H.
  destruct (action_calls _ _ H)
    as [-> | (shop & body & i & pid & rating & (Hm & Hs & Hb & Hnorm)
              & Hpid & Hn & Ha & Ht & ->)];
    [now left|].
  right. exists (create_data shop pid rating i). split; [reflexivity|].
  cbn [create_data CreateData.shopDomain CreateData.body CreateData.authorName
       CreateData.productId CreateData.rating CreateData.title
       CreateData.authorEmail CreateData.productHandle].
  split; [exact Hm|]. split; [exact Hs|].
  split; [now apply truthy_some, (getShop_truthy request)|].
  split; [exact Ht|]. split; [exact Ha|].
  exists body, i. repeat split; assumption.
Qed.

(** X4, instance: the example submission for product 42, in the run where
    the store fails. *)
Lemma created_data_witness :
  getShopFromRequest (json_post (Normal (review_body (VStr "42") (num 5))))
  = Some "a.myshopify.com".
Proof.
  destruct
    (action_accepts
       (json_post (Normal (review_body (VStr "42") (num 5))))
       "a.myshopify.com" (review_body (VStr "42") (num 5))
       (mkInputs (VStr "42") (num 5) None "Great" "Ana" None None)
       ltac:(submission_example) 42 (Num.of_Z 5)
       ltac:(evaluate) ltac:(evaluate) ltac:(evaluate) ltac:(evaluate)
       ltac:(discriminate) ltac:(discriminate))
    as (k & E & _ & Herr).
  assert (H : store_calls
                (action (json_post (Normal (review_body (VStr "42") (num 5)))))
                [CreateCall
                   (create_data "a.myshopify.com" 42 (Num.of_Z 5)
                      (mkInputs (VStr "42") (num 5) None "Great" "Ana" None None))]).
  { rewrite E. apply (calls_create _ _ (Throw StoreError)).
    rewrite Herr. constructor. }
  destruct (created_data _ _ H) as [Hnil | (d & Hd & _ & Hs & _)].
  - discriminate Hnil.
  - injection Hd as <-. exact Hs.
Defined.

(** X5: rule 3 of the validation.  A submission whose identifier and
    rating pass but whose author name or text is empty is answered with
    400 "author_name and body are required", without a store call. *)
Theorem author_and_text_required (request : Request) (shop : string) (body : value)
    (i : Inputs) (pid : Z) (rating : Num.number) :
  submission request shop body i ->
  Js.ToBoolean (productIdRaw i) = true ->
  Js.ToBigInt (productIdRaw i) = Normal pid ->
  Js.ToNumber (ratingRaw i) = Normal rating ->
  rating_out_of_range rating = false ->
  authorName i = "" \/ text i = "" ->
  action request = bad_request "author_name and body are required" /\
  no_store_call (action request).
Proof.
  intros Hsub Hp Hpid Hn Hr Hempty.
  assert (E : action request = bad_request "author_name and body are required").
  { rewrite (action_submission _ _ _ _ Hsub), Hp, Hpid, Hn.
    cbn [negb lift pbind]. rewrite Hr.
    destruct Hempty as [-> | ->]; cbn [String.eqb orb]; [reflexivity|].
    now rewrite orb_true_r. }
  split; [exact E|]. now rewrite E.
Qed.

(** X5, instance: a submission without an author name. *)
Lemma author_and_text_required_witness :
  action (json_post (Normal (VObj [ ("product_id", VStr "42"); ("rating", num 5);
                                    ("body", VStr "Great") ])))
  = bad_request "author_name and body are required".
Proof.
  refine (proj1
    (author_and_text_required
       (json_post (Normal (VObj [ ("product_id", VStr "42"); ("rating", num 5);
                                  ("body", VStr "Great") ])))
       "a.myshopify.com"
       (VObj [ ("product_id", VStr "42"); ("rating", num 5); ("body", VStr "Great") ])
       (mkInputs (VStr "42") (num 5) None "Great" "" None None)
       42 (Num.of_Z 5) _ _ _ _ _ _)).
  - submission_example.
  - reflexivity.
  - evaluate.
  - reflexivity.
  - evaluate.
  - left. reflexivity.
Defined.

(** ** How the body is read and normalised *)

Lemma normalize_text (body : value) (i : Inputs) :
  normalize body = Normal i ->
  exists b,
    Js.get body "body" = Normal b /\
    (if negb (Js.is_undefined b) then Js.ToString b
     else
       cbind (Js.get body "review") (fun r =>
         if negb (Js.is_undefined r) then Js.ToString r else Normal ""))
    = Normal (text i).
Proof.
  unfold normalize. intros H.
  do 4 (apply cbind_inv in H as (? & _ & H); cbv beta in H).
  apply cbind_inv in H as (t & Ht & H). cbv beta in H.
  do 3 (apply cbind_inv in H as (? & _ & H); cbv beta in H).
  injection H as <-. cbn [text].
  apply cbind_inv in Ht as (b & Hb & Ht). now exists b.
Qed.

Lemma is_undefined_false (v : value) : v <> VUndefined -> Js.is_undefined v = false.
Proof. destruct v; try reflexivity. now intros H. Qed.

(** X6: the text of a review is read under [body] and, only when [body]
    is [undefined], under the alias [review].  A [body] that is present
    wins even when it is empty (the alias is then not consulted), and a
    [body] that is [null] becomes the text "null"; with neither field the
    text is empty. *)
Theorem text_alias (body : value) (i : Inputs) :
  normalize body = Normal i ->
  (forall b, Js.get body "body" = Normal b -> b <> VUndefined ->
     Js.ToString b = Normal (text i)) /\
  (Js.get body "body" = Normal (VStr "") -> text i = "") /\
  (Js.get body "body" = Normal VNull -> text i = "null") /\
  (Js.get body "body" = Normal VUndefined ->
   forall r, Js.get body "review" = Normal r ->
     (r <> VUndefined -> Js.ToString r = Normal (text i)) /\
     (r = VUndefined -> text i = "")).
Proof.
  intros Hn. destruct (normalize_text _ _ Hn) as (b & Hb & Ht).
  assert (H1 : forall b', Js.get body "body" = Normal b' -> b' <> VUndefined ->
                          Js.ToString b' = Normal (text i)).
  { intros b' Hb' Hne. rewrite Hb in Hb'. injection Hb' as <-.
    now rewrite (is_undefined_false _ Hne) in Ht. }
  split; [exact H1|]. split; [|split].
  - intros E. specialize (H1 _ E ltac:(discriminate)). now injection H1.
  - intros E. specialize (H1 _ E ltac:(discriminate)). now injection H1.
  - intros E r Hr. rewrite Hb in E. injection E as ->.
    cbn [Js.is_undefined negb] in Ht. rewrite Hr in Ht. cbn [cbind] in Ht. split.
    + intros Hne. now rewrite (is_undefined_false _ Hne) in Ht.
    + intros ->. now injection Ht.
Qed.

(** X6, instance: an empty [body] beside a [review]. *)
Lemma text_alias_witness :
  text (mkInputs VUndefined VUndefined None "" "" None None) = "".
Proof.
  refine (proj1 (proj2
    (text_alias (VObj [("body", VStr ""); ("review", VStr "Nice")])
       (mkInputs VUndefined VUndefined None "" "" None None) _)) _);
    reflexivity.
Defined.

(** X7: a JSON body that is not an object.  Reading a field of [null]
    throws, so the body [null] is answered with 500; a body that is a
    boolean, a number, a string or an array has none of the fields and is
    answered with 400 "product_id is required". *)
Theorem body_that_is_no_object (request : Request) (shop : string) (body : value) :
  method request = "POST" ->
  getShopFromRequest request = Some shop ->
  readBody request = Normal body ->
  match body with
  | VNull | VUndefined => action request = server_error "Failed to submit review"
  | VObj _ => True
  | _ => action request = bad_request "product_id is required"
  end.
Proof.
  intros Hm Hs Hb.
  assert (Hempty : normalize body = Normal (mkInputs VUndefined VUndefined None "" "" None None)
                   -> action request = bad_request "product_id is required").
  { intros Hn.
    apply (action_missing_id request shop body
             (mkInputs VUndefined VUndefined None "" "" None None)).
    - split; [|split; [|split]]; assumption.
    - reflexivity. }
  destruct body; try exact I; try (apply Hempty; reflexivity);
    unfold action; rewrite Hm, Hs, (getShop_truthy _ _ Hs), Hb; reflexivity.
Qed.

(** X7, instance: the JSON body [null]. *)
Lemma body_that_is_no_object_witness :
  action (json_post (Normal VNull)) = server_error "Failed to submit review".
Proof.
  exact (body_that_is_no_object (json_post (Normal VNull)) "a.myshopify.com" VNull
           eq_refl eq_refl eq_refl).
Defined.

(** X8: [readBody] fails only where the parser the content type declares
    fails: with a declared JSON type when [json()] fails, with a declared
    form type when [formData()] fails, and never when the content type
    declares neither. *)
Theorem readBody_failure (request : Request) (e : JsError) :
  readBody request = Throw e ->
  (declares_json request = true /\ json request = Throw e) \/
  (declares_json request = false /\ declares_form request = true /\
   formData request = Throw e).
Proof.
  rewrite readBody_unfold.
  destruct (declares_json request); [now left|].
  destruct (declares_form request).
  - destruct (formData request) as [form|e']; [discriminate|].
    cbn [cbind]. intros E. injection E as <-. now right.
  - destruct (json request); discriminate.
Qed.

(** X8, instance: a garbled body declared as JSON. *)
Lemma readBody_failure_witness :
  (declares_json (json_post (Throw SyntaxError)) = true /\
   json (json_post (Throw SyntaxError)) = Throw SyntaxError) \/
  (declares_json (json_post (Throw SyntaxError)) = false /\
   declares_form (json_post (Throw SyntaxError)) = true /\
   formData (json_post (Throw SyntaxError)) = Throw SyntaxError).
Proof.
  exact (readBody_failure (json_post (Throw SyntaxError)) SyntaxError eq_refl).
Defined.

(** ** Form-encoded bodies *)

Lemma lookup_assign (props : list (string * value)) (k k' : string) (x : value) :
  Js.lookup k (Js.assign props k' x)
  = if String.eqb k k' then Some x else Js.lookup k props.
Proof.
  induction props as [|[k0 v0] props IH]; cbn [Js.assign Js.lookup].
  - reflexivity.
  - destruct (String.eqb_spec k' k0) as [->|Hne]; cbn [Js.lookup].
    + now destruct (String.eqb k k0).
    + rewrite IH. destruct (String.eqb_spec k k0) as [->|Hk]; [|reflexivity].
      destruct (String.eqb_spec k0 k'); [congruence | reflexivity].
Qed.

Lemma assign_strings (props : list (string * value)) (k v : string) :
  all_strings props -> all_strings (Js.assign props k (VStr v)).
Proof.
  unfold all_strings. induction 1 as [|[k0 v0] props Hx Hl IH]; cbn [Js.assign].
  - constructor; [now exists v | constructor].
  - destruct (String.eqb k k0); constructor; try assumption. now exists v.
Qed.

Lemma form_fold (form : list (string * string)) (acc : list (string * value)) :
  let props := fold_left (fun obj kv => Js.set obj (fst kv) (snd kv)) form acc in
  (all_strings acc -> all_strings props) /\
  (forall k, k <> "__proto__" ->
     Js.lookup k props
     = match last_value k form with
       | Some v => Some (VStr v)
       | None => Js.lookup k acc
       end) /\
  Js.lookup "__proto__" props = Js.lookup "__proto__" acc.
Proof.
  revert acc. induction form as [|[k' v] form IH]; intros acc; cbn [fold_left].
  - cbn. auto.
  - destruct (IH (Js.set acc k' v)) as (Hs & Hl & Hp). cbn [fst snd].
    split; [|split].
    + intros Hacc. apply Hs. unfold Js.set.
      destruct (String.eqb k' "__proto__"); [assumption | now apply assign_strings].
    + intros k Hk. rewrite (Hl k Hk). cbn [last_value].
      destruct (last_value k form); [reflexivity|].
      unfold Js.set. destruct (String.eqb_spec k' "__proto__") as [->|Hne].
      * destruct (String.eqb_spec k "__proto__"); [contradiction | reflexivity].
      * rewrite lookup_assign. now destruct (String.eqb k k').
    + rewrite Hp. unfold Js.set.
      destruct (String.eqb_spec k' "__proto__") as [->|Hne]; [reflexivity|].
      rewrite lookup_assign.
      destruct (String.eqb_spec "__proto__" k'); [congruence | reflexivity].
Qed.

Lemma readBody_form (request : Request) (form : list (string * string)) :
  declares_json request = false ->
  declares_form request = true ->
  formData request = Normal form ->
  exists props,
    readBody request = Normal (VObj props) /\
    all_strings props /\
    (forall k, k <> "__proto__" ->
       Js.lookup k props = option_map VStr (last_value k form)) /\
    Js.lookup "__proto__" props = None.
Proof.
  intros Hj Hf Hd. rewrite readBody_unfold, Hj, Hf, Hd. cbn [cbind].
  eexists. split; [reflexivity|].
  destruct (form_fold form []) as (Hs & Hl & Hp).
  split; [apply Hs; constructor|]. split; [|exact Hp].
  intros k Hk. rewrite (Hl k Hk). now destruct (last_value k form).
Qed.

(** X9: a form-encoded body becomes an object of strings in which each
    field has the value of its last occurrence in the form; a form field
    named [__proto__] is dropped. *)
Theorem form_last_value_wins (request : Request) (form : list (string * string)) :
  declares_json request = false ->
  declares_form request = true ->
  formData request = Normal form ->
  exists props,
    readBody request = Normal (VObj props) /\
    all_strings props /\
    (forall k, k <> "__proto__" ->
       Js.get (VObj props) k
       = Normal (match last_value k form with
                 | Some v => VStr v
                 | None => VUndefined
                 end)) /\
    Js.get (VObj props) "__proto__" = Normal VUndefined.
Proof.
  intros Hj Hf Hd.
  destruct (readBody_form request form Hj Hf Hd) as (props & Hb & Hs & Hl & Hp).
  exists props. split; [exact Hb|]. split; [exact Hs|]. split.
  - intros k Hk. cbn [Js.get]. rewrite (Hl k Hk). now destruct (last_value k form).
  - cbn [Js.get]. now rewrite Hp.
Qed.

(** X9, instance: a form that gives the rating twice. *)
Lemma form_last_value_wins_witness :
  exists props,
    readBody (form_request [("rating", "1"); ("__proto__", "x"); ("rating", "5")])
    = Normal (VObj props) /\
    Js.get (VObj props) "rating" = Normal (VStr "5").
Proof.
  destruct
    (form_last_value_wins
       (form_request [("rating", "1"); ("__proto__", "x"); ("rating", "5")])
       [("rating", "1"); ("__proto__", "x"); ("rating", "5")]
       eq_refl eq_refl eq_refl)
    as (props & Hb & _ & Hl & _).
  exists props. split; [exact Hb|]. apply (Hl "rating"). discriminate.
Defined.

Lemma lookup_all_strings (props : list (string * value)) (k : string) (v : value) :
  all_strings props -> Js.lookup k props = Some v -> exists s, v = VStr s.
Proof.
  unfold all_strings. induction 1 as [|[k0 v0] props Hx Hl IH]; cbn [Js.lookup].
  - discriminate.
  - destruct (String.eqb k k0); [|exact IH].
    intros E. injection E as <-. exact Hx.
Qed.

Lemma get_all_strings (props : list (string * value)) (k : string) :
  all_strings props ->
  exists v, Js.get (VObj props) k = Normal v /\ string_or_undefined v.
Proof.
  intros Hs. cbn [Js.get]. destruct (Js.lookup k props) as [v|] eqn:E.
  - exists v. split; [reflexivity|]. right. exact (lookup_all_strings _ _ _ Hs E).
  - exists VUndefined. split; [reflexivity|]. now left.
Qed.

Lemma string_or_null_total (v : value) :
  string_or_undefined v -> exists o, string_or_null v = Normal o.
Proof.
  intros [->|(s & ->)]; unfold string_or_null; cbn [Js.ToBoolean].
  - now exists None.
  - destruct (negb (String.eqb s "")); [now exists (Some s) | now exists None].
Qed.

Lemma string_or_empty_total (v : value) :
  string_or_undefined v -> exists o, string_or_empty v = Normal o.
Proof.
  intros [->|(s & ->)]; unfold string_or_empty; cbn [Js.ToBoolean].
  - now exists "".
  - destruct (negb (String.eqb s "")); [now exists s | now exists ""].
Qed.

Lemma ToString_total (v : value) :
  string_or_undefined v -> exists s, Js.ToString v = Normal s.
Proof. intros [->|(s & ->)]; cbn [Js.ToString]; eauto. Qed.

Lemma ToNumber_total (v : value) :
  string_or_undefined v -> exists x, Js.ToNumber v = Normal x.
Proof. intros [->|(s & ->)]; cbn [Js.ToNumber]; eauto. Qed.

(** The normalisation of an object of strings throws nowhere. *)
Lemma normalize_strings (props : list (string * value)) :
  all_strings props ->
  exists i,
    normalize (VObj props) = Normal i /\
    string_or_undefined (productIdRaw i) /\
    string_or_undefined (ratingRaw i).
Proof.
  intros Hs. unfold normalize.
  destruct (get_all_strings props "productId" Hs) as (primary & -> & Hprimary).
  cbn [cbind].
  assert (Hraw : exists raw,
             (if Js.nullish primary then Js.get (VObj props) "product_id"
              else Normal primary) = Normal raw /\ string_or_undefined raw).
  { destruct (Js.nullish primary).
    - exact (get_all_strings props "product_id" Hs).
    - now exists primary. }
  destruct Hraw as (raw & -> & Hraw). cbn [cbind].
  destruct (get_all_strings props "rating" Hs) as (rt & -> & Hrt). cbn [cbind].
  destruct (get_all_strings props "title" Hs) as (t & -> & Ht). cbn [cbind].
  destruct (string_or_null_total _ Ht) as (title' & ->). cbn [cbind].
  destruct (get_all_strings props "body" Hs) as (b & -> & Hb). cbn [cbind].
  assert (Htext : exists s,
             (if negb (Js.is_undefined b) then Js.ToString b
              else cbind (Js.get (VObj props) "review") (fun r =>
                     if negb (Js.is_undefined r) then Js.ToString r else Normal ""))
             = Normal s).
  { destruct (negb (Js.is_undefined b)); [now apply ToString_total|].
    destruct (get_all_strings props "review" Hs) as (r & -> & Hr). cbn [cbind].
    destruct (negb (Js.is_undefined r)); [now apply ToString_total | now exists ""]. }
  destruct Htext as (text' & ->). cbn [cbind].
  destruct (get_all_strings props "author_name" Hs) as (a & -> & Ha). cbn [cbind].
  destruct (string_or_empty_total _ Ha) as (author' & ->). cbn [cbind].
  destruct (get_all_strings props "author_email" Hs) as (m & -> & Hm). cbn [cbind].
  destruct (string_or_null_total _ Hm) as (email' & ->). cbn [cbind].
  destruct (get_all_strings props "product_handle" Hs) as (h & -> & Hh). cbn [cbind].
  destruct (string_or_null_total _ Hh) as (handle' & ->). cbn [cbind].
  eexists. split; [reflexivity|]. now split.
Qed.

(** X10: a form-encoded submission never ends in an internal error on its
    own.  For a POST with a resolved tenant whose form was decoded, the
    handler either answers 400 with the message of the first rule that
    fails, or hands a create to the store; the answer can be 500 only if
    the store call fails. *)
Theorem form_submission_answer (request : Request) (shop : string)
    (form : list (string * string)) :
  form_post request shop form ->
  (exists error,
     action request = bad_request error /\
     In error ["product_id is required"; "Invalid product_id";
               "rating must be between 1 and 5";
               "author_name and body are required"]) \/
  (exists d k,
     action request = Create d k /\
     (forall created, k (Normal created) = ret (safeJson (created_payload created) 200))).
Proof.
  intros (Hm & Hs & Hj & Hf & Hd).
  destruct (readBody_form request form Hj Hf Hd) as (props & Hb & Hstr & _).
  destruct (normalize_strings props Hstr) as (i & Hn & Hraw & Hrt).
  assert (Hsub : submission request shop (VObj props) i)
    by (split; [|split; [|split]]; assumption).
  destruct (Js.ToBoolean (productIdRaw i)) eqn:Hp.
  2:{ left. eexists. split; [exact (action_missing_id _ _ _ _ Hsub Hp)|].
      cbn; auto. }
  destruct (Js.ToBigInt (productIdRaw i)) as [pid|e] eqn:Hpid.
  2:{ left. eexists. split; [exact (action_invalid_id _ _ _ _ Hsub e Hp Hpid)|].
      cbn; auto. }
  destruct (ToNumber_total _ Hrt) as (rating & Hnum).
  destruct (rating_out_of_range rating) eqn:Hr.
  { left. eexists.
    split; [exact (action_bad_rating _ _ _ _ Hsub pid rating Hp Hpid Hnum Hr)|].
    cbn; auto. }
  destruct (String.eqb_spec (authorName i) "") as [Ha|Ha].
  { left. eexists. split; [|cbn; auto 6].
    rewrite (action_submission _ _ _ _ Hsub), Hp, Hpid, Hnum.
    cbn [negb lift pbind]. now rewrite Hr, Ha. }
  destruct (String.eqb_spec (text i) "") as [Ht|Ht].
  { left. eexists. split; [|cbn; auto 6].
    rewrite (action_submission _ _ _ _ Hsub), Hp, Hpid, Hnum.
    cbn [negb lift pbind]. rewrite Hr, Ht. cbn [String.eqb]. now rewrite orb_true_r. }
  right.
  destruct (action_accepts _ _ _ _ Hsub pid rating Hp Hpid Hnum Hr Ha Ht)
    as (k & E & Hok & _).
  now exists (create_data shop pid rating i), k.
Qed.

(** X10, instance: a form with a rating out of range. *)
Lemma form_submission_answer_witness :
  (exists error,
     action (form_request [("product_id", "42"); ("rating", "7")]) = bad_request error /\
     In error ["product_id is required"; "Invalid product_id";
               "rating must be between 1 and 5";
               "author_name and body are required"]) \/
  (exists d k,
     action (form_request [("product_id", "42"); ("rating", "7")]) = Create d k /\
     (forall created, k (Normal created) = ret (safeJson (created_payload created) 200))).
Proof.
  refine (form_submission_answer
            (form_request [("product_id", "42"); ("rating", "7")])
            "a.myshopify.com" [("product_id", "42"); ("rating", "7")] _).
  split; [|split; [|split; [|split]]]; reflexivity.
Defined.

(** ** The list handler *)

Lemma loader_resolved (request : Request) (shop : string) :
  getShopFromRequest request = Some shop ->
  loader request =
  try_catch
    (if String.eqb (product_id_param request) "" then bad_request "Missing product_id"
     else
       match BigInt_of_string (product_id_param request) with
       | Throw _ => bad_request "Invalid product_id"
       | Normal pid =>
           reviews <-
             review_findMany
               (FindManyArgs.mk shop pid (status_filter request) desc 50) ;;
           ret (safeJson (listing_payload reviews) 200)
       end)
    (fun _ => ret (safeJson (failure "Failed to load reviews") 500)).
Proof.
  intros Hs. unfold loader. rewrite Hs, (getShop_truthy _ _ Hs). reflexivity.
Qed.

(** X11: the product identifier of a list request.  It is read under
    [product_id] and, only when that parameter is absent, under
    [productId]; an absent or empty identifier is answered with 400
    "Missing product_id" and one that [BigInt] does not parse with 400
    "Invalid product_id", in both cases without a store call. *)
Theorem loader_product_id (request : Request) (shop : string) :
  getShopFromRequest request = Some shop ->
  (forall v, searchParams_get (url request) "product_id" = Some v ->
     product_id_param request = v) /\
  (searchParams_get (url request) "product_id" = None ->
   product_id_param request
   = string_of (searchParams_get (url request) "productId")) /\
  (product_id_param request = "" ->
   loader request = bad_request "Missing product_id") /\
  (product_id_param request <> "" ->
   forall e, BigInt_of_string (product_id_param request) = Throw e ->
   loader request = bad_request "Invalid product_id").
Proof.
  intros Hs. split; [|split; [|split]].
  - intros v E. unfold product_id_param. now rewrite E.
  - intros E. unfold product_id_param. rewrite E.
    now destruct (searchParams_get (url request) "productId").
  - intros E. rewrite (loader_resolved _ _ Hs), E. reflexivity.
  - intros Hne e E. rewrite (loader_resolved _ _ Hs), E.
    apply String.eqb_neq in Hne. now rewrite Hne.
Qed.

(** X11, instance: an empty [product_id] hides the alias. *)
Lemma loader_product_id_witness :
  loader (list_get [("product_id", ""); ("productId", "42")])
  = bad_request "Missing product_id".
Proof.
  refine (proj1 (proj2 (proj2
    (loader_product_id (list_get [("product_id", ""); ("productId", "42")])
       "a.myshopify.com" _))) _); reflexivity.
Defined.

Lemma loader_call_full_inv (request : Request) (q : FindManyArgs.t)
    (k : Completion (list Review.t) -> Prog Response.t) :
  loader request = FindMany q k ->
  exists shop pid,
    getShopFromRequest request = Some shop /\
    product_id_param request <> "" /\
    BigInt_of_string (product_id_param request) = Normal pid /\
    q = FindManyArgs.mk shop pid (status_filter request) desc 50 /\
    (forall rows, k (Normal rows) = ret (safeJson (listing_payload rows) 200)) /\
    (forall e, k (Throw e) = server_error "Failed to load reviews").
Proof.
  destruct (getShopFromRequest request) as [shop|] eqn:Hs.
  2:{ rewrite (loader_unresolved _ Hs). discriminate. }
  rewrite (loader_resolved _ _ Hs).
  destruct (String.eqb_spec (product_id_param request) "") as [|Hne]; [discriminate|].
  destruct (BigInt_of_string (product_id_param request)) as [pid|e]; [|discriminate].
  cbn [pbind review_findMany try_catch]. intros E. injection E as <- <-.
  exists shop, pid. repeat split; auto.
Qed.

(** X12: the list handler only reads, and only within the tenant.  In a
    complete run, whatever the store answers, it makes no store call or
    exactly one, a [findMany] and never a create; that query is for the
    shop the request resolved to and the product identifier of the
    request, asks for the newest rows first and for 50 rows at most. *)
Theorem loader_query_scope (request : Request) (calls : list StoreCall) :
  store_calls (loader request) calls ->
  calls = [] \/
  exists q,
    calls = [FindManyCall q] /\
    getShopFromRequest request = Some (FindManyArgs.where_shopDomain q) /\
    FindManyArgs.where_shopDomain q <> "" /\
    BigInt_of_string (product_id_param request)
    = Normal (FindManyArgs.where_productId q) /\
    FindManyArgs.orderBy_createdAt q = desc /\
    FindManyArgs.take q = 50.
Proof.
  intros H. destruct (loader_calls _ _ H) as [-> | (q & k & E & ->)]; [now left|].
  right. exists q. split; [reflexivity|].
  destruct (loader_call_full_inv _ _ _ E) as (shop & pid & Hs & _ & Hpid & -> & _).
  cbn [FindManyArgs.where_shopDomain FindManyArgs.where_productId
       FindManyArgs.orderBy_createdAt FindManyArgs.take].
  split; [exact Hs|]. split; [now apply truthy_some, (getShop_truthy request)|].
  split; [exact Hpid|]. split; reflexivity.
Qed.

(** X12, instance: the one query of a list request for product 42, in the
    run where the store fails. *)
Lemma loader_query_scope_witness :
  getShopFromRequest (list_get [("product_id", "42")]) = Some "a.myshopify.com".
Proof.
  destruct (loader_query (list_get [("product_id", "42")]) "a.myshopify.com" 42
              eq_refl ltac:(discriminate) eq_refl) as (k & E & _ & Herr).
  assert (H : store_calls (loader (list_get [("product_id", "42")]))
                [FindManyCall (FindManyArgs.mk "a.myshopify.com" 42
                                 (status_filter (list_get [("product_id", "42")]))
                                 desc 50)]).
  { rewrite E. apply (calls_findMany _ _ (Throw StoreError)).
    rewrite Herr. constructor. }
  destruct (loader_query_scope _ _ H) as [Hnil | (q & Hq & Hs & _)].
  - discriminate Hnil.
  - injection Hq as <-. exact Hs.
Defined.

(** X20: the status a list request filters on.  The one query of a run
    of the list handler asks for the status the parameter names, when it
    names a known status; for [approved], when the parameter is absent or
    gives a name under which the enum object holds nothing; and for the
    inherited property, which is no status, when the parameter gives a
    property name of [Object.prototype]. *)
Theorem status_of_query (request : Request) (calls : list StoreCall)
    (q : FindManyArgs.t) :
  store_calls (loader request) calls ->
  In (FindManyCall q) calls ->
  (forall s, status_param request = Some (ReviewStatus_name s) ->
     FindManyArgs.where_status q = Member s) /\
  (no_known_status request -> ~ names_inherited request ->
   FindManyArgs.where_status q = Member approved) /\
  (names_inherited request ->
   exists name,
     status_param request = Some name /\
     FindManyArgs.where_status q = Inherited name).
Proof.
  intros H Hin.
  destruct (loader_calls _ _ H) as [-> | (q' & k & E & ->)]; [contradiction|].
  destruct Hin as [Hq | []]. injection Hq as ->.
  rewrite (loader_call_inv _ _ _ E). split; [|split].
  - apply known_status_filter.
  - apply unknown_status_default.
  - apply inherited_status_filter.
Qed.

(** X20, instance: the status [bogus] is replaced by [approved]. *)
Lemma status_of_query_witness :
  FindManyArgs.where_status
    (FindManyArgs.mk "a.myshopify.com" 42
       (status_filter (list_get [("product_id", "42"); ("status", "bogus")]))
       desc 50)
  = Member approved.
Proof.
  destruct (loader_query (list_get [("product_id", "42"); ("status", "bogus")])
              "a.myshopify.com" 42 eq_refl ltac:(discriminate) eq_refl)
    as (k & E & _ & Herr).
  refine (proj1 (proj2
    (status_of_query (list_get [("product_id", "42"); ("status", "bogus")])
       [FindManyCall
          (FindManyArgs.mk "a.myshopify.com" 42
             (status_filter (list_get [("product_id", "42"); ("status", "bogus")]))
             desc 50)]
       _ _ _)) _ _).
  - rewrite E. apply (calls_findMany _ _ (Throw StoreError)).
    rewrite Herr. constructor.
  - now left.
  - cbn. repeat split; discriminate.
  - cbn. intros H. repeat (destruct H as [H|H]; [discriminate H|]). exact H.
Defined.

(** X13: a failure of the store is answered with 500 and a fixed message
    that does not depend on the failure: "Failed to submit review" by the
    submit handler, "Failed to load reviews" by the list handler. *)
Theorem store_failure_answer (request : Request) :
  (forall d k e,
     action request = Create d k ->
     k (Throw e) = server_error "Failed to submit review") /\
  (forall q k e,
     loader request = FindMany q k ->
     k (Throw e) = server_error "Failed to load reviews").
Proof.
  split.
  - intros d k e E.
    destruct (action_call_inv _ _ _ E) as (? & ? & ? & ? & ? & _ & _ & _ & _ & _ & _ & H).
    apply H.
  - intros q k e E.
    destruct (loader_call_full_inv _ _ _ E) as (? & ? & _ & _ & _ & _ & _ & H).
    apply H.
Qed.

(** X13, instance: the list request for product 42 when the store fails. *)
Lemma store_failure_answer_witness :
  exists k,
    loader (list_get [("product_id", "42")])
    = FindMany (FindManyArgs.mk "a.myshopify.com" 42 (Member approved) desc 50) k /\
    k (Throw StoreError) = server_error "Failed to load reviews".
Proof.
  destruct (loader_query (list_get [("product_id", "42")]) "a.myshopify.com" 42
              eq_refl ltac:(discriminate) eq_refl) as (k & E & _).
  exists k. split; [exact E|].
  exact (proj2 (store_failure_answer _) _ k StoreError E).
Defined.

(** ** Where a resolved tenant comes from *)

(** X14: what the resolver returns is never empty, and it is either the
    tenant header, or (the header being absent or empty) the [shop]
    parameter, both taken as they are, or (both being absent or empty) the
    host candidate, which then ends with [.myshopify.com]. *)
Theorem resolved_tenant_origin (request : Request) (s : string) :
  getShopFromRequest request = Some s ->
  s <> "" /\
  (tenant_header request = Some s \/
   (Js.truthy (tenant_header request) = false /\ shop_param request = Some s) \/
   (Js.truthy (tenant_header request) = false /\
    Js.truthy (shop_param request) = false /\
    host_candidate request = Some s /\ ends_with_myshopify s)).
Proof.
  intros Hs. split; [now apply truthy_some, (getShop_truthy request)|].
  rewrite getShop_unfold in Hs.
  destruct (Js.truthy (tenant_header request)) eqn:Hh; [now left|].
  destruct (Js.truthy (shop_param request)) eqn:Hq; [right; left; now split|].
  right. right.
  destruct (host_candidate request) as [h|]; [|now rewrite andb_false_r in Hs].
  destruct (test_myshopify h) eqn:Ht; [|now rewrite andb_false_r in Hs].
  destruct (Js.truthy (Some h)); [|discriminate].
  cbn [andb] in Hs. injection Hs as <-.
  repeat split. now apply test_myshopify_spec.
Qed.

(** X14, instance: a tenant header is taken as it is, whatever it holds. *)
Lemma resolved_tenant_origin_witness :
  "not-a-shop.example" <> "" /\
  (tenant_header (mkRequest "GET" [("X-Shopify-Shop-Domain", "not-a-shop.example")]
                    (mkURL "app.example.com" []) no_body no_form)
   = Some "not-a-shop.example" \/
   (Js.truthy
      (tenant_header (mkRequest "GET" [("X-Shopify-Shop-Domain", "not-a-shop.example")]
                        (mkURL "app.example.com" []) no_body no_form)) = false /\
    shop_param (mkRequest "GET" [("X-Shopify-Shop-Domain", "not-a-shop.example")]
                  (mkURL "app.example.com" []) no_body no_form)
    = Some "not-a-shop.example") \/
   (Js.truthy
      (tenant_header (mkRequest "GET" [("X-Shopify-Shop-Domain", "not-a-shop.example")]
                        (mkURL "app.example.com" []) no_body no_form)) = false /\
    Js.truthy
      (shop_param (mkRequest "GET" [("X-Shopify-Shop-Domain", "not-a-shop.example")]
                     (mkURL "app.example.com" []) no_body no_form)) = false /\
    host_candidate (mkRequest "GET" [("X-Shopify-Shop-Domain", "not-a-shop.example")]
                      (mkURL "app.example.com" []) no_body no_form)
    = Some "not-a-shop.example" /\
    ends_with_myshopify "not-a-shop.example")).
Proof.
  exact (resolved_tenant_origin
           (mkRequest "GET" [("X-Shopify-Shop-Domain", "not-a-shop.example")]
              (mkURL "app.example.com" []) no_body no_form)
           "not-a-shop.example" eq_refl).
Defined.

(** ** Listings on the store *)

Lemma insert_In (o : SortOrder) (x y : Review.t) (l : list Review.t) :
  In x (Store.insert o y l) <-> x = y \/ In x l.
Proof.
  induction l as [|z l IH]; cbn [Store.insert].
  - cbn. intuition.
  - destruct (Store.before o y z); cbn [In]; [intuition|].
    rewrite IH. cbn [In]. intuition.
Qed.

Lemma sort_In (o : SortOrder) (x : Review.t) (l : list Review.t) :
  In x (Store.sort o l) <-> In x l.
Proof.
  unfold Store.sort. induction l as [|y l IH]; cbn [fold_right].
  - reflexivity.
  - rewrite insert_In, IH. cbn [In]. intuition.
Qed.

Lemma insert_newest_first (x : Review.t) (l : list Review.t) :
  newest_first l -> newest_first (Store.insert desc x l).
Proof.
  induction l as [|y l IH]; cbn [Store.insert newest_first].
  - intros _. split; [constructor | exact I].
  - intros (Hy & Hl). cbn [Store.before].
    destruct (Z.ltb_spec (Review.createdAt y) (Review.createdAt x)) as [Hlt|Hge];
      cbn [newest_first].
    + split; [|now split]. constructor; [lia|].
      eapply Forall_impl; [|exact Hy]. cbn. intros a Ha. lia.
    + split; [|now apply IH].
      apply Forall_forall. intros a Ha. apply insert_In in Ha as [->|Ha]; [lia|].
      rewrite Forall_forall in Hy. now apply Hy.
Qed.

Lemma sort_newest_first (l : list Review.t) : newest_first (Store.sort desc l).
Proof.
  unfold Store.sort. induction l as [|x l IH]; cbn [fold_right].
  - exact I.
  - now apply insert_newest_first.
Qed.

Lemma firstn_In_list {A : Type} (n : nat) (l : list A) (x : A) :
  In x (firstn n l) -> In x l.
Proof.
  intros H. rewrite <- (firstn_skipn n l). apply in_or_app. now left.
Qed.

Lemma firstn_newest_first (n : nat) (l : list Review.t) :
  newest_first l -> newest_first (firstn n l).
Proof.
  revert l. induction n as [|n IH]; intros [|x l]; cbn [firstn newest_first]; auto.
  intros (Hx & Hl). split; [|now apply IH].
  apply Forall_forall. intros a Ha. rewrite Forall_forall in Hx.
  apply Hx. now apply (firstn_In_list n).
Qed.

Lemma ReviewStatus_eqb_eq (a b : ReviewStatus) :
  ReviewStatus_eqb a b = true -> a = b.
Proof. destruct a, b; (reflexivity || discriminate). Qed.

Lemma matches_spec (q : FindManyArgs.t) (r : Review.t) :
  Store.matches q r = true ->
  Review.shopDomain r = FindManyArgs.where_shopDomain q /\
  Review.productId r = FindManyArgs.where_productId q /\
  Member (Review.status r) = FindManyArgs.where_status q.
Proof.
  unfold Store.matches. intros H.
  apply andb_true_iff in H as (H & H3). apply andb_true_iff in H as (H1 & H2).
  apply String.eqb_eq in H1. apply Z.eqb_eq in H2.
  destruct (FindManyArgs.where_status q) as [s|name]; [|discriminate].
  apply ReviewStatus_eqb_eq in H3. rewrite H3. auto.
Qed.

(** What a successful [findMany] for the newest 50 rows returns *)
Lemma findMany_rows (q : FindManyArgs.t) (db : Store.Db) (rows : list Review.t) :
  FindManyArgs.orderBy_createdAt q = desc ->
  FindManyArgs.take q = 50 ->
  Store.findMany q db = Normal rows ->
  (List.length rows <= 50)%nat /\
  newest_first rows /\
  Forall (fun r =>
            In r db /\
            Review.shopDomain r = FindManyArgs.where_shopDomain q /\
            Review.productId r = FindManyArgs.where_productId q /\
            Member (Review.status r) = FindManyArgs.where_status q) rows.
Proof.
  intros Ho Ht. unfold Store.findMany. rewrite Ho.
  assert (Hn : Z.to_nat (FindManyArgs.take q) = 50%nat) by now rewrite Ht.
  remember (Z.to_nat (FindManyArgs.take q)) as n eqn:En. clear En.
  destruct (Store.fits_int64 _ && Store.fits_status _); [|discriminate].
  intros E. injection E as <-. split; [|split].
  - rewrite <- Hn. apply firstn_le_length.
  - apply firstn_newest_first, sort_newest_first.
  - apply Forall_forall. intros r Hr.
    apply firstn_In_list, sort_In, filter_In in Hr as (Hin & Hm).
    split; [exact Hin | now apply matches_spec].
Qed.

Lemma loader_shape (request : Request) :
  (exists resp, loader request = ret resp /\ In (Response.status resp) [400; 401]) \/
  (exists q k, loader request = FindMany q k).
Proof.
  destruct (getShopFromRequest request) as [shop|] eqn:Hs.
  2:{ left. eexists. split; [now apply loader_unresolved | status_in]. }
  rewrite (loader_resolved _ _ Hs).
  destruct (String.eqb _ "").
  { left. eexists. split; [reflexivity | status_in]. }
  destruct (BigInt_of_string _) as [pid|e].
  - right. eexists. eexists. reflexivity.
  - left. eexists. split; [reflexivity | status_in].
Qed.

(** What a run of the list handler on the store yields *)
Lemma run_loader_listing (request : Request) (f : Store.Fresh) (db db' : Store.Db)
    (resp : Response.t) :
  Store.run f (loader request) db = (Normal resp, db') ->
  db' = db /\
  (Response.status resp = 200 ->
   exists q k rows,
     loader request = FindMany q k /\
     Store.findMany q db = Normal rows /\
     resp = safeJson (listing_payload rows) 200).
Proof.
  destruct (loader_shape request) as [(resp0 & E & Hin) | (q & k & E)].
  { rewrite E. cbn [Store.run ret]. intros H. injection H as <- <-.
    split; [reflexivity|]. intros H200. rewrite H200 in Hin.
    cbn in Hin. intuition discriminate. }
  destruct (loader_call_full_inv _ _ _ E) as (shop & pid & _ & _ & _ & _ & Hok & Herr).
  rewrite E. cbn [Store.run].
  destruct (Store.findMany q db) as [rows|e] eqn:Hf.
  - rewrite Hok. cbn [Store.run ret]. intros H. injection H as <- <-.
    split; [reflexivity|]. intros _. now exists q, k, rows.
  - rewrite Herr. cbn [Store.run server_error ret]. intros H. injection H as <- <-.
    split; [reflexivity|]. rewrite status_safeJson. discriminate.
Qed.

(** X15: on the store, a list request changes nothing, and when it is
    answered with 200 the listing holds at most 50 rows, from the newest
    to the oldest, each of them a stored row of the resolved tenant and of
    the product asked for; each of them has the status the parameter
    names, when it names a known status, and is [approved] when the
    parameter is absent or gives a name under which the enum object holds
    nothing, not even an inherited property. *)
Theorem listing_result (request : Request) (f : Store.Fresh) (db db' : Store.Db)
    (resp : Response.t) :
  Store.run f (loader request) db = (Normal resp, db') ->
  db' = db /\
  (Response.status resp = 200 ->
   exists shop pid rows,
     getShopFromRequest request = Some shop /\
     BigInt_of_string (product_id_param request) = Normal pid /\
     resp = safeJson (listing_payload rows) 200 /\
     (List.length rows <= 50)%nat /\
     newest_first rows /\
     Forall (fun r =>
               In r db /\
               Review.shopDomain r = shop /\
               Review.productId r = pid /\
               (forall s, status_param request = Some (ReviewStatus_name s) ->
                          Review.status r = s) /\
               (no_known_status request -> ~ names_inherited request ->
                Review.status r = approved)) rows).
Proof.
  intros Hrun. destruct (run_loader_listing _ _ _ _ _ Hrun) as (Hdb & Hlist).
  split; [exact Hdb|]. intros H200.
  destruct (Hlist H200) as (q & k & rows & E & Hf & Hresp).
  destruct (loader_call_full_inv _ _ _ E) as (shop & pid & Hs & _ & Hpid & Hq & _).
  exists shop, pid, rows. split; [exact Hs|]. split; [exact Hpid|].
  split; [exact Hresp|].
  assert (Hrows := findMany_rows q db rows). rewrite Hq in Hrows at 1 2.
  specialize (Hrows eq_refl eq_refl Hf).
  destruct Hrows as (Hlen & Hsorted & Hall). split; [exact Hlen|].
  split; [exact Hsorted|]. rewrite Hq in Hall.
  cbn [FindManyArgs.where_shopDomain FindManyArgs.where_productId
       FindManyArgs.where_status] in Hall.
  eapply Forall_impl; [|exact Hall]. cbn beta.
  intros r (Hin & Hshop & Hprod & Hst).
  split; [exact Hin|]. split; [exact Hshop|]. split; [exact Hprod|]. split.
  - intros s Hname. rewrite (known_status_filter _ _ Hname) in Hst.
    now injection Hst.
  - intros Hunknown Hown. rewrite (unknown_status_default _ Hunknown Hown) in Hst.
    now injection Hst.
Qed.

(** X15, instance: the pending listing of product 42 on a table that holds
    one such row. *)
Lemma listing_result_witness :
  exists rows,
    safeJson (listing_payload [example_row 42 5]) 200
    = safeJson (listing_payload rows) 200 /\
    (List.length rows <= 50)%nat.
Proof.
  destruct
    (proj2 (listing_result (list_get [("product_id", "42"); ("status", "pending")])
              fresh2 [example_row 42 5] [example_row 42 5]
              (safeJson (listing_payload [example_row 42 5]) 200)
              ltac:(evaluate))
       eq_refl)
    as (shop & pid & rows & _ & _ & E & Hlen & _).
  exists rows. split; assumption.
Defined.

(** What a submission answered with 200 has done on the store *)
Lemma run_action_created (request : Request) (shop : string) (body : value)
    (i : Inputs) (f : Store.Fresh) (db db' : Store.Db) (resp : Response.t) :
  submission request shop body i ->
  Store.run f (action request) db = (Normal resp, db') ->
  Response.status resp = 200 ->
  exists pid rating,
    Js.ToBigInt (productIdRaw i) = Normal pid /\
    Store.fits_int64 pid = true /\
    resp = safeJson (created_payload (Store.row f (create_data shop pid rating i))) 200 /\
    db' = db ++ [Store.row f (create_data shop pid rating i)].
Proof.
  intros Hsub Hrun H200.
  destruct (action_shape request) as [(resp0 & E & Hin) | (shop1 & body1 & i1 & d & k & _ & E)].
  { rewrite E in Hrun. cbn [Store.run ret] in Hrun. injection Hrun as <- <-.
    rewrite H200 in Hin. cbn in Hin. intuition discriminate. }
  destruct (action_create_inv _ _ _ _ Hsub _ _ E)
    as (pid & rating & _ & Hpid & _ & _ & _ & _ & Hd & Hok & Herr).
  rewrite E in Hrun.
  destruct (Store.fits_int32 (CreateData.rating d)
            && Store.fits_int64 (CreateData.productId d)) eqn:Hfit.
  2:{ rewrite (run_create_refused _ _ _ _ Hfit), Herr in Hrun.
      cbn [Store.run ret] in Hrun. injection Hrun as <- <-.
      rewrite status_safeJson in H200. discriminate. }
  rewrite (run_create_accepted _ _ _ _ Hfit), Hok in Hrun.
  cbn [Store.run ret] in Hrun. injection Hrun as <- <-.
  apply andb_true_iff in Hfit as (_ & Hfit). subst d.
  exists pid, rating. repeat split; assumption.
Qed.

(** ** Identifiers as text *)


(** ** Submitting, then listing *)

(** X17: any review that was submitted and answered with 200 is returned,
    first, by a later list request of the same tenant that asks for
    [status=pending] and gives as [product_id] the identifier the response
    shows, provided the stored rows are older than the new one. *)
Theorem submit_then_list (post get : Request) (shop : string) (body : value)
    (i : Inputs) (f f' : Store.Fresh) (db db' : Store.Db) (resp : Response.t) :
  submission post shop body i ->
  Store.run f (action post) db = (Normal resp, db') ->
  Response.status resp = 200 ->
  Forall (fun x => Review.createdAt x < Store.now f) db ->
  exists r,
    resp = safeJson (created_payload r) 200 /\
    db' = db ++ [r] /\
    (getShopFromRequest get = Some shop ->
     product_id_param get = Str.decimal (Review.productId r) ->
     status_param get = Some "pending" ->
     exists rest,
       Store.run f' (loader get) db'
       = (Normal (safeJson (listing_payload (r :: rest)) 200), db')).
Proof.
  intros Hsub Hrun H200 Hold.
  destruct (run_action_created _ _ _ _ _ _ _ _ Hsub Hrun H200)
    as (pid & rating & _ & Hfit & -> & ->).
  set (r := Store.row f (create_data shop pid rating i)).
  exists r. split; [reflexivity|]. split; [reflexivity|].
  intros Hs Hp Hst.
  change (Review.productId r) with pid in Hp.
  destruct (loader_query get shop pid Hs) as (k & E & Hok & _).
  { rewrite Hp. apply decimal_nonempty. }
  { rewrite Hp. unfold BigInt_of_string, Js.ToBigInt. cbn [Js.ToString cbind].
    now rewrite decimal_parses. }
  unfold status_filter in E. rewrite Hst in E. cbn [coalesce string_of] in E.
  change (ReviewStatus_lookup "pending") with (Some (Member pending)) in E.
  exists (firstn 49 (Store.sort desc
                       (filter (Store.matches
                                  (FindManyArgs.mk shop pid (Member pending) desc 50))
                               db))).
  rewrite E. cbn [Store.run].
  rewrite findMany_newest; try reflexivity.
  - now rewrite Hok.
  - exact Hfit.
  - subst r. unfold Store.matches. cbn. rewrite String.eqb_refl, Z.eqb_refl. reflexivity.
  - subst r. exact Hold.
Qed.

(** X17, instance: product 42, submitted and listed on an empty table. *)
Lemma submit_then_list_witness :
  exists r,
    safeJson (created_payload (example_row 42 5)) 200 = safeJson (created_payload r) 200 /\
    [example_row 42 5] = [] ++ [r].
Proof.
  destruct
    (submit_then_list
       (json_post (Normal (review_body (VStr "42") (num 5))))
       (list_get [("product_id", "42"); ("status", "pending")])
       "a.myshopify.com" (review_body (VStr "42") (num 5))
       (mkInputs (VStr "42") (num 5) None "Great" "Ana" None None)
       fresh1 fresh2 [] [example_row 42 5]
       (safeJson (created_payload (example_row 42 5)) 200)
       ltac:(submission_example) ltac:(evaluate) eq_refl ltac:(constructor))
    as (r & E & Hdb & _).
  exists r. split; assumption.
Defined.

(** X18: tenants do not see each other's reviews.  A review submitted for
    one shop and answered with 200 is in no listing answered to a request
    that resolves to another shop, all rows of such a listing being rows
    of that other shop. *)
Theorem tenant_isolation (post get : Request) (shop other : string) (body : value)
    (i : Inputs) (f f' : Store.Fresh) (db db1 db2 : Store.Db)
    (resp resp' : Response.t) :
  submission post shop body i ->
  Store.run f (action post) db = (Normal resp, db1) ->
  Response.status resp = 200 ->
  getShopFromRequest get = Some other ->
  other <> shop ->
  Store.run f' (loader get) db1 = (Normal resp', db2) ->
  Response.status resp' = 200 ->
  exists r rows,
    resp = safeJson (created_payload r) 200 /\
    Review.shopDomain r = shop /\
    resp' = safeJson (listing_payload rows) 200 /\
    Forall (fun x => Review.shopDomain x = other) rows /\
    ~ In r rows.
Proof.
  intros Hsub Hrun H200 Hs Hne Hrun' H200'.
  destruct (run_action_created _ _ _ _ _ _ _ _ Hsub Hrun H200)
    as (pid & rating & _ & _ & -> & ->).
  destruct (run_loader_listing _ _ _ _ _ Hrun') as (_ & Hlist).
  destruct (Hlist H200') as (q & k & rows & E & Hf & ->).
  destruct (loader_call_full_inv _ _ _ E) as (shop' & pid' & Hs' & _ & _ & Hq & _).
  rewrite Hs in Hs'. injection Hs' as <-.
  exists (Store.row f (create_data shop pid rating i)), rows.
  split; [reflexivity|]. split; [reflexivity|]. split; [reflexivity|].
  assert (Hshop : Forall (fun x => Review.shopDomain x = other) rows).
  { assert (Hrows := fun Ho Ht => findMany_rows q _ rows Ho Ht Hf).
    rewrite Hq in Hrows at 1 2.
    destruct (Hrows eq_refl eq_refl) as (_ & _ & Hall).
    eapply Forall_impl; [|exact Hall]. cbn. intros x (_ & Hx & _).
    now rewrite Hx, Hq. }
  split; [exact Hshop|].
  intros Hin. rewrite Forall_forall in Hshop. apply Hshop in Hin.
  cbn in Hin. congruence.
Qed.

(** X18, instance: a review of shop [a.myshopify.com] and the pending
    listing of the same product asked by shop [b.myshopify.com]. *)
Lemma tenant_isolation_witness :
  exists r rows,
    safeJson (created_payload (example_row 42 5)) 200 = safeJson (created_payload r) 200 /\
    safeJson (listing_payload []) 200 = safeJson (listing_payload rows) 200 /\
    ~ In r rows.
Proof.
  destruct
    (tenant_isolation
       (json_post (Normal (review_body (VStr "42") (num 5))))
       (other_list_get [("product_id", "42"); ("status", "pending")])
       "a.myshopify.com" "b.myshopify.com" (review_body (VStr "42") (num 5))
       (mkInputs (VStr "42") (num 5) None "Great" "Ana" None None)
       fresh1 fresh2 [] [example_row 42 5] [example_row 42 5]
       (safeJson (created_payload (example_row 42 5)) 200)
       (safeJson (listing_payload []) 200)
       ltac:(submission_example) ltac:(evaluate) eq_refl eq_refl
       ltac:(discriminate) ltac:(evaluate) eq_refl)
    as (r & rows & E & _ & E' & _ & Hnot).
  exists r, rows. split; [exact E|]. split; assumption.
Defined.

(** ** What a submission leaves on the store *)

(** X19: on the store, the submit handler never changes or removes a row
    and adds one at most: when its answer is not 200 the table is as it
    was, and in every case the table after the request is the table before
    it followed by at most one new row. *)
Theorem submission_only_appends (request : Request) (f : Store.Fresh)
    (db db' : Store.Db) (resp : Response.t) :
  Store.run f (action request) db = (Normal resp, db') ->
  (Response.status resp <> 200 -> db' = db) /\
  exists added, db' = db ++ added /\ (List.length added <= 1)%nat.
Proof.
  intros Hrun.
  destruct (action_shape request) as [(resp0 & E & _) | (shop & body & i & d & k & Hsub & E)].
  { rewrite E in Hrun. cbn [Store.run ret] in Hrun. injection Hrun as <- <-.
    split; [reflexivity|]. exists []. split; [now rewrite app_nil_r | cbn; lia]. }
  destruct (action_create_inv _ _ _ _ Hsub _ _ E)
    as (pid & rating & _ & _ & _ & _ & _ & _ & _ & Hok & Herr).
  rewrite E in Hrun.
  destruct (Store.fits_int32 (CreateData.rating d)
            && Store.fits_int64 (CreateData.productId d)) eqn:Hfit.
  - rewrite (run_create_accepted _ _ _ _ Hfit), Hok in Hrun.
    cbn [Store.run ret] in Hrun. injection Hrun as <- <-. split.
    + rewrite status_safeJson. intros H. now elim H.
    + exists [Store.row f d]. split; [reflexivity | cbn; lia].
  - rewrite (run_create_refused _ _ _ _ Hfit), Herr in Hrun.
    cbn [Store.run ret] in Hrun. injection Hrun as <- <-.
    split; [reflexivity|]. exists []. split; [now rewrite app_nil_r | cbn; lia].
Qed.

(** X19, instance: a submission with a rating out of range on a table
    that holds a row. *)
Lemma submission_only_appends_witness :
  [example_row 42 5] = [example_row 42 5].
Proof.
  refine (proj1
    (submission_only_appends
       (json_post (Normal (review_body (VStr "42") (num 6))))
       fresh2 [example_row 42 5] [example_row 42 5]
       (safeJson (failure "rating must be between 1 and 5") 400) _) _).
  - evaluate.
  - discriminate.
Defined.
